(** * The Qubole Hive execution state machine

    A shallow embedding of the per-task state machine of the Hive plugin
    (package [hive]): the phase enumeration, the persisted [ExecutionState],
    the transition function [HandleExecutionState] with its three workers
    [GetAllocationToken], [KickOffQuery] and [MonitorQuery], the phase
    projector [MapExecutionStateToPhaseInfo], the cluster label resolution
    and the lifecycle hooks [Abort] and [Finalize].

    The collaborators the Go code reaches through interfaces (task reader,
    secret manager, resource manager, Qubole client, auto-refresh cache,
    clock, metrics) are the fields of the class [Platform]; the code is
    written once, over any implementation of it.  Every call to a
    collaborator is also appended to a log, so that statements such as
    "the token is released" or "no cancel call is made" can be read off
    the log.  Calls to [logger] have no effect on any result and are left
    out. *)

From Stdlib Require Import ZArith String List Lia Bool DecimalString.
From Stdlib Require Import DecimalPos DecimalZ.
From stdpp Require Import gmap strings.
Import ListNotations.

Local Open Scope string_scope.
Local Open Scope Z_scope.
Local Open Scope list_scope.

(** ** Machine integers *)

(** Go's [int] on the 64-bit targets: a signed 64-bit integer, kept as a [Z]
    within [min_int, max_int]; arithmetic wraps. *)
Definition max_int : Z := 2 ^ 63 - 1.
Definition min_int : Z := - 2 ^ 63.

Definition wrap_int (z : Z) : Z := (z + 2 ^ 63) mod 2 ^ 64 - 2 ^ 63.

Definition int_add (a b : Z) : Z := wrap_int (a + b).

(** The conversion [uint32(x)] of an [int]: the low 32 bits. *)
Definition to_uint32 (z : Z) : Z := z mod 2 ^ 32.

(** [strconv.FormatInt(i, 10)]. *)
Definition FormatInt10 (i : Z) : string := NilZero.string_of_int (Z.to_int i).

(** ** Errors *)

Definition ErrorCode : Type := string.

(** Modelled from the spec: the error kinds of package [errors]
    (go/tasks/errors is not among the sources); the taxonomy of section 7
    names them. *)
Definition BadTaskSpecification : ErrorCode := "BadTaskSpecification".
Definition ResourceManagerFailure : ErrorCode := "ResourceManagerFailure".
Definition CacheFailed : ErrorCode := "CacheFailed".
Definition RuntimeFailure : ErrorCode := "RuntimeFailure".
Definition DownstreamSystemError : ErrorCode := "DownstreamSystemError".

(** A Go [error] value.  [PlainError] is any error that was not built by the
    [errors] package (what a collaborator hands back); [TaskError] is what
    [errors.Errorf] builds and [TaskErrorWithCause] what [errors.Wrapf]
    builds around a cause. *)
Inductive error : Type :=
| PlainError (msg : string)
| TaskError (code : ErrorCode) (msg : string)
| TaskErrorWithCause (code : ErrorCode) (msg : string) (cause : error).

Definition Errorf (code : ErrorCode) (msg : string) : error :=
  TaskError code msg.

Definition Wrapf (code : ErrorCode) (cause : error) (msg : string) : error :=
  TaskErrorWithCause code msg cause.

Definition taxonomy : list ErrorCode :=
  [BadTaskSpecification; ResourceManagerFailure; CacheFailed; RuntimeFailure;
   DownstreamSystemError].

Definition is_taxonomy_code (c : ErrorCode) : bool :=
  existsb (String.eqb c) taxonomy.

(** The error carries a kind of the taxonomy, attached by the wrapper. *)
Definition carries_taxonomy_kind (e : error) : bool :=
  match e with
  | PlainError _ => false
  | TaskError c _ => is_taxonomy_code c
  | TaskErrorWithCause c _ _ => is_taxonomy_code c
  end.

(** ** The data model *)

Definition ExecutionPhase : Type := Z.

Definition PhaseNotStarted : ExecutionPhase := 0.
Definition PhaseQueued : ExecutionPhase := 1.
Definition PhaseSubmitted : ExecutionPhase := 2.
Definition PhaseQuerySucceeded : ExecutionPhase := 3.
Definition PhaseQueryFailed : ExecutionPhase := 4.

Definition ExecutionPhase_String (p : ExecutionPhase) : string :=
  if p =? PhaseNotStarted then "PhaseNotStarted"
  else if p =? PhaseQueued then "PhaseQueued"
  else if p =? PhaseSubmitted then "PhaseSubmitted"
  else if p =? PhaseQuerySucceeded then "PhaseQuerySucceeded"
  else if p =? PhaseQueryFailed then "PhaseQueryFailed"
  else "Bad Qubole execution phase".

(** [time.Time] as the number of nanoseconds since the zero instant. *)
Definition Time : Type := Z.
Definition IsZero (t : Time) : bool := t =? 0.

Record ExecutionState : Type := mkExecutionState {
  Phase : ExecutionPhase;
  CommandId : string;
  URI : string;
  SyncFailureCount : Z;
  CreationFailureCount : Z;
  AllocationTokenRequestStartTime : Time
}.

(** The zero value [ExecutionState{}]. *)
Definition zeroExecutionState : ExecutionState :=
  mkExecutionState PhaseNotStarted "" "" 0 0 0.

Definition withPhase (p : ExecutionPhase) (e : ExecutionState) : ExecutionState :=
  mkExecutionState p (CommandId e) (URI e) (SyncFailureCount e)
    (CreationFailureCount e) (AllocationTokenRequestStartTime e).
Definition withCommandId (c : string) (e : ExecutionState) : ExecutionState :=
  mkExecutionState (Phase e) c (URI e) (SyncFailureCount e)
    (CreationFailureCount e) (AllocationTokenRequestStartTime e).
Definition withURI (u : string) (e : ExecutionState) : ExecutionState :=
  mkExecutionState (Phase e) (CommandId e) u (SyncFailureCount e)
    (CreationFailureCount e) (AllocationTokenRequestStartTime e).
Definition withCreationFailureCount (n : Z) (e : ExecutionState) : ExecutionState :=
  mkExecutionState (Phase e) (CommandId e) (URI e) (SyncFailureCount e)
    n (AllocationTokenRequestStartTime e).
Definition withAllocationTokenRequestStartTime (t : Time) (e : ExecutionState)
  : ExecutionState :=
  mkExecutionState (Phase e) (CommandId e) (URI e) (SyncFailureCount e)
    (CreationFailureCount e) t.

(** The cache entry of one execution, and what the cache may hold: the cast
    [cachedItem.(ExecutionStateCacheItem)] succeeds on [StateItem] only. *)
Record ExecutionStateCacheItem : Type := mkCacheItem {
  ItemState : ExecutionState;
  Id : string
}.

Inductive Item : Type :=
| StateItem (c : ExecutionStateCacheItem)
| ForeignItem (id : string).

(** The payload of the task template, once decoded.  [Query_] is the field
    [Query] of [HiveQuery]; the name without the underscore is the field of
    [QuboleHiveJob]. *)
Record HiveQuery : Type := mkHiveQuery {
  Query_ : string;
  TimeoutSec : Z;
  RetryCount : Z
}.

Record QuboleHiveJob : Type := mkQuboleHiveJob {
  ClusterLabel : string;
  Query : option HiveQuery;
  Tags : list string
}.

(** What the create call answers with; [CommandURI] is [URI.String()]. *)
Record QuboleCommandDetails : Type := mkCommandDetails {
  ID : Z;
  CommandURI : string
}.

(** The cluster configuration of the plugin.  [DestClusterLabel] is the
    field [ClusterLabel] of [DestinationClusterConfig]. *)
Record ClusterConfig : Type := mkClusterConfig {
  PrimaryLabel : string;
  Labels : list string
}.

Record DestinationClusterConfig : Type := mkDestinationClusterConfig {
  Project : string;
  Domain : string;
  DestClusterLabel : string
}.

Record Config : Type := mkConfig {
  TokenKey : string;
  ClusterConfigs : list ClusterConfig;
  DestinationClusterConfigs : list DestinationClusterConfig
}.

(** What the code reads from [tCtx.TaskExecutionMetadata()].  [GetLabels]
    lists the label map in the order the [range] loop visits it. *)
Record TaskExecutionMetadata : Type := mkMetadata {
  GetGeneratedName : string;
  GetProject : string;
  GetDomain : string;
  GetNamespace : string;
  GetLabels : list (string * string)
}.

Definition ResourceNamespace : Type := string.

(** [core.AllocationStatus]; its declaration is in package [core], the
    code here tells three of its values apart from all others. *)
Inductive AllocationStatus : Type :=
| AllocationUndefined
| AllocationStatusGranted
| AllocationStatusExhausted
| AllocationStatusNamespaceQuotaExceeded.

Definition AllocationStatus_String (a : AllocationStatus) : string :=
  match a with
  | AllocationUndefined => "AllocationUndefined"
  | AllocationStatusGranted => "AllocationStatusGranted"
  | AllocationStatusExhausted => "AllocationStatusExhausted"
  | AllocationStatusNamespaceQuotaExceeded => "AllocationStatusNamespaceQuotaExceeded"
  end.

(** [core.TaskInfo] with its one log entry, and [core.PhaseInfo] as the
    constructor of package [core] that built it. *)
Record TaskLog : Type := mkTaskLog {
  LogName : string;
  LogUri : string
}.

Record TaskInfo : Type := mkTaskInfo {
  Logs : list TaskLog;
  OccurredAt : Time
}.

Definition DefaultPhaseVersion : Z := 0.

Inductive PhaseInfo : Type :=
| PhaseInfoZero
| PhaseInfoNotReady (t : Time) (version : Z) (reason : string)
| PhaseInfoQueued (t : Time) (version : Z) (reason : string)
| PhaseInfoRunning (version : Z) (info : option TaskInfo)
| PhaseInfoSuccess (info : option TaskInfo)
| PhaseInfoFailure (code : ErrorCode) (reason : string) (info : option TaskInfo)
| PhaseInfoSystemRetryableFailure (code : ErrorCode) (reason : string)
    (info : option TaskInfo).

(** ** Collaborators *)

(** The calls the code makes to its collaborators, as they are logged. *)
Inductive Call : Type :=
| CallTaskRead
| CallSecretGet (key : string)
| CallAllocateResource (ns : ResourceNamespace) (token : string)
| CallReleaseResource (ns : ResourceNamespace) (token : string)
| CallExecuteHiveCommand (query : string) (timeoutSec : Z) (label : string)
    (apiKey : string) (tags : list string)
| CallKillCommand (commandId : string) (apiKey : string)
| CallGetOrCreate (id : string) (item : Item)
| CallObserveWaitTime (d : Z).

(** What the code takes from packages outside this file: the protobuf
    [Struct] of a task template with its decoder [utils.UnmarshalStruct],
    the constant [DefaultClusterPrimaryLabel] and the loaded configuration
    [config.GetQuboleConfig()]. *)
Class Package : Type := {
  Struct : Type;
  UnmarshalStruct : Struct -> QuboleHiveJob + error;
  DefaultClusterPrimaryLabel : string;
  GetQuboleConfig : Config
}.

Record TaskTemplate `{Package} : Type := mkTaskTemplate {
  GetCustom : Struct
}.

(** The interfaces behind which the collaborators live; [W] is whatever
    state they keep. *)
Class Platform `{Package} (W : Type) : Type := {
  TaskReader_Read : W -> (TaskTemplate + error) * W;
  SecretManager_Get : string -> W -> (string + error) * W;
  AllocateResource :
    ResourceNamespace -> string -> W -> (AllocationStatus + error) * W;
  ReleaseResource : ResourceNamespace -> string -> W -> option error * W;
  ExecuteHiveCommand :
    string -> Z -> string -> string -> list string -> W ->
    (QuboleCommandDetails + error) * W;
  KillCommand : string -> string -> W -> option error * W;
  GetOrCreate : string -> Item -> W -> (Item + error) * W;
  time_Now : W -> Time * W
}.

(** ** The monad of the code: collaborator state and call log *)

Definition M (W A : Type) : Type := W * list Call -> A * (W * list Call).

Definition ret {W A : Type} (a : A) : M W A := fun s => (a, s).

Definition bind {W A B : Type} (m : M W A) (k : A -> M W B) : M W B :=
  fun s => let (a, s') := m s in k a s'.

Notation "x <- m ;; k" := (bind m (fun x => k))
  (at level 100, m at next level, right associativity).

(** One logged call to a collaborator. *)
Definition call {W A : Type} (c : Call) (op : W -> A * W) : M W A :=
  fun s => let (a, w') := op (fst s) in (a, (w', snd s ++ [c])).

(** Reading the clock is not logged. *)
Definition now {PK : Package} {W : Type} {PF : Platform W} : M W Time :=
  fun s => let (t, w') := time_Now (fst s) in (t, (w', snd s)).

(** [metric.ResourceWaitTime.Observe]; the log keeps the duration. *)
Definition observe {W : Type} (d : Z) : M W unit :=
  fun s => (tt, (fst s, snd s ++ [CallObserveWaitTime d])).

Definition calls_of {W A : Type} (r : A * (W * list Call)) : list Call :=
  snd (snd r).

Definition is_release (c : Call) : bool :=
  match c with CallReleaseResource _ _ => true | _ => false end.

Definition is_kill (c : Call) : bool :=
  match c with CallKillCommand _ _ => true | _ => false end.

Definition count_calls (p : Call -> bool) (l : list Call) : nat :=
  length (List.filter p l).

(** ** The code *)

Section Machine.
Context {PK : Package} {W : Type} {PF : Platform W}.

Definition validateQuboleHiveJob (hiveJob : QuboleHiveJob) : option error :=
  match Query hiveJob with
  | None =>
      Some (Errorf BadTaskSpecification
        "Query could not be found. Please ensure that you are at least on Flytekit version 0.3.0 or later.")
  | Some _ => None
  end.

Definition labelTags (labels : list (string * string)) : list string :=
  map (fun kv => fst kv +:+ ":" +:+ snd kv) labels.

(** The result is (query, cluster, tags, timeoutSec, err).  The last case
    is the dereference of a nil [hiveJob.Query], which the validation
    before it excludes. *)
Definition GetQueryInfo (tCtx : TaskExecutionMetadata)
  : M W (string * string * list string * Z * option error) :=
  r <- call CallTaskRead TaskReader_Read ;;
  match r with
  | inr err => ret ("", "", [], 0, Some err)
  | inl taskTemplate =>
      match UnmarshalStruct (GetCustom taskTemplate) with
      | inr err => ret ("", "", [], 0, Some err)
      | inl hiveJob =>
          match validateQuboleHiveJob hiveJob, Query hiveJob with
          | Some err, _ => ret ("", "", [], 0, Some err)
          | None, Some q =>
              let query := Query_ q in
              let cluster := ClusterLabel hiveJob in
              let timeoutSec := TimeoutSec q in
              let tags := Tags hiveJob in
              let tags := tags ++ ["ns:" +:+ GetNamespace tCtx] in
              let tags := tags ++ labelTags (GetLabels tCtx) in
              ret (query, cluster, tags, timeoutSec, None)
          | None, None =>
              ret ("", "", [], 0, Some (PlainError "nil pointer dereference"))
          end
      end
  end.

(** The inner loop of [mapLabelToPrimaryLabel]: the labels of one cluster,
    left at the first match by [break]. *)
Fixpoint scanLabels (clusterCfg : ClusterConfig) (label : string)
  (labels : list string) (acc : string * bool) : string * bool :=
  match labels with
  | [] => acc
  | l :: rest =>
      if negb (String.eqb label "") && String.eqb l label
      then (PrimaryLabel clusterCfg, true)
      else scanLabels clusterCfg label rest acc
  end.

(** The outer loop goes on after a match: a later cluster that lists the
    label overwrites an earlier one. *)
Fixpoint scanClusters (label : string) (cfgs : list ClusterConfig)
  (acc : string * bool) : string * bool :=
  match cfgs with
  | [] => acc
  | clusterCfg :: rest =>
      scanClusters label rest (scanLabels clusterCfg label (Labels clusterCfg) acc)
  end.

Definition mapLabelToPrimaryLabel (quboleCfg : Config) (label : string)
  : string * bool :=
  let primaryLabel := DefaultClusterPrimaryLabel in
  let found := false in
  if String.eqb label "" then (primaryLabel, found)
  else scanClusters label (ClusterConfigs quboleCfg) (primaryLabel, found).

Fixpoint scanDestinations (project domain : string)
  (ms : list DestinationClusterConfig) : string * bool :=
  match ms with
  | [] => ("", false)
  | m :: rest =>
      if String.eqb project (Project m) && String.eqb domain (Domain m)
      then (DestClusterLabel m, true)
      else scanDestinations project domain rest
  end.

Definition mapProjectDomainToDestinationClusterLabel
  (tCtx : TaskExecutionMetadata) (quboleCfg : Config) : string * bool :=
  let project := GetProject tCtx in
  let domain := GetDomain tCtx in
  scanDestinations project domain (DestinationClusterConfigs quboleCfg).

Definition getClusterPrimaryLabel (tCtx : TaskExecutionMetadata)
  (clusterLabelOverride : string) : string :=
  let cfg := GetQuboleConfig in
  let viaProjectDomain :=
    let (clusterLabel, found) := mapProjectDomainToDestinationClusterLabel tCtx cfg in
    if found then fst (mapLabelToPrimaryLabel cfg clusterLabel)
    else DefaultClusterPrimaryLabel in
  if negb (String.eqb clusterLabelOverride "") then
    let (primaryLabel, found) := mapLabelToPrimaryLabel cfg clusterLabelOverride in
    if found then primaryLabel else viaProjectDomain
  else viaProjectDomain.

Definition composeResourceNamespaceWithClusterPrimaryLabel
  (tCtx : TaskExecutionMetadata) : M W (ResourceNamespace * option error) :=
  qi <- GetQueryInfo tCtx ;;
  let '(_, clusterLabelOverride, _, _, err) := qi in
  match err with
  | Some e => ret ("", Some e)
  | None =>
      let clusterPrimaryLabel := getClusterPrimaryLabel tCtx clusterLabelOverride in
      ret (clusterPrimaryLabel, None)
  end.

Definition GetAllocationToken (tCtx : TaskExecutionMetadata)
  (currentState : ExecutionState) : M W (ExecutionState * option error) :=
  let newState := zeroExecutionState in
  let uniqueId := GetGeneratedName tCtx in
  ns <- composeResourceNamespaceWithClusterPrimaryLabel tCtx ;;
  let (clusterPrimaryLabel, err) := ns in
  match err with
  | Some e =>
      ret (newState,
           Some (Wrapf ResourceManagerFailure e
             ("Error getting query info when requesting allocation token " +:+ uniqueId)))
  | None =>
  a <- call (CallAllocateResource clusterPrimaryLabel uniqueId)
            (AllocateResource clusterPrimaryLabel uniqueId) ;;
  match a with
  | inr e =>
      ret (newState,
           Some (Wrapf ResourceManagerFailure e
             ("Error requesting allocation token " +:+ uniqueId)))
  | inl allocationStatus =>
  start <- (if IsZero (AllocationTokenRequestStartTime currentState)
            then now
            else ret (AllocationTokenRequestStartTime currentState)) ;;
  let newState := withAllocationTokenRequestStartTime start newState in
  t <- now ;;
  let waitTime := t - AllocationTokenRequestStartTime newState in
  _ <- observe waitTime ;;
  match allocationStatus with
  | AllocationStatusGranted => ret (withPhase PhaseQueued newState, None)
  | AllocationStatusExhausted => ret (withPhase PhaseNotStarted newState, None)
  | AllocationStatusNamespaceQuotaExceeded =>
      ret (withPhase PhaseNotStarted newState, None)
  | _ =>
      ret (newState,
           Some (Errorf ResourceManagerFailure
             ("Got bad allocation result [" +:+ AllocationStatus_String allocationStatus
              +:+ "] for token [" +:+ uniqueId +:+ "]")))
  end
  end
  end.

Definition KickOffQuery (tCtx : TaskExecutionMetadata)
  (currentState : ExecutionState) (cfg : Config)
  : M W (ExecutionState * option error) :=
  let uniqueId := GetGeneratedName tCtx in
  k <- call (CallSecretGet (TokenKey cfg)) (SecretManager_Get (TokenKey cfg)) ;;
  match k with
  | inr e =>
      ret (currentState,
           Some (Wrapf RuntimeFailure e "Failed to read token from secrets manager"))
  | inl apiKey =>
  qi <- GetQueryInfo tCtx ;;
  let '(query, clusterLabelOverride, tags, timeoutSec, err) := qi in
  match err with
  | Some e => ret (currentState, Some e)
  | None =>
  let clusterPrimaryLabel := getClusterPrimaryLabel tCtx clusterLabelOverride in
  c <- call (CallExecuteHiveCommand query timeoutSec clusterPrimaryLabel apiKey tags)
            (ExecuteHiveCommand query timeoutSec clusterPrimaryLabel apiKey tags) ;;
  match c with
  | inr _ =>
      let currentState :=
        withCreationFailureCount (int_add (CreationFailureCount currentState) 1)
          currentState in
      ret (currentState, None)
  | inl cmdDetails =>
      let commandId := FormatInt10 (ID cmdDetails) in
      let currentState := withCommandId commandId currentState in
      let currentState := withPhase PhaseSubmitted currentState in
      let currentState := withURI (CommandURI cmdDetails) currentState in
      let executionStateCacheItem := mkCacheItem currentState uniqueId in
      g <- call (CallGetOrCreate uniqueId (StateItem executionStateCacheItem))
                (GetOrCreate uniqueId (StateItem executionStateCacheItem)) ;;
      match g with
      | inr e => ret (currentState, Some e)
      | inl _ => ret (currentState, None)
      end
  end
  end
  end.

Definition MonitorQuery (tCtx : TaskExecutionMetadata)
  (currentState : ExecutionState) : M W (ExecutionState * option error) :=
  let uniqueId := GetGeneratedName tCtx in
  let executionStateCacheItem := mkCacheItem currentState uniqueId in
  g <- call (CallGetOrCreate uniqueId (StateItem executionStateCacheItem))
            (GetOrCreate uniqueId (StateItem executionStateCacheItem)) ;;
  match g with
  | inr e =>
      ret (currentState,
           Some (Wrapf CacheFailed e "Error when GetOrCreate while monitoring"))
  | inl cachedItem =>
      match cachedItem with
      | StateItem cachedExecutionState => ret (ItemState cachedExecutionState, None)
      | ForeignItem _ =>
          (* the message is the format, its argument not rendered *)
          ret (currentState, Some (Errorf CacheFailed "Failed to cast [%v]"))
      end
  end.

(** This is the main state iteration.  A phase outside the five constants
    matches no case of the [switch]: both results keep their zero value. *)
Definition HandleExecutionState (tCtx : TaskExecutionMetadata)
  (currentState : ExecutionState) (cfg : Config)
  : M W (ExecutionState * option error) :=
  if Phase currentState =? PhaseNotStarted then
    GetAllocationToken tCtx currentState
  else if Phase currentState =? PhaseQueued then
    KickOffQuery tCtx currentState cfg
  else if Phase currentState =? PhaseSubmitted then
    MonitorQuery tCtx currentState
  else if Phase currentState =? PhaseQuerySucceeded then
    ret (currentState, None)
  else if Phase currentState =? PhaseQueryFailed then
    ret (currentState, None)
  else ret (zeroExecutionState, None).

Definition ConstructTaskLog (e : ExecutionState) : TaskLog :=
  mkTaskLog
    ("Status: " +:+ ExecutionPhase_String (Phase e) +:+ " [" +:+ CommandId e +:+ "]")
    (URI e).

Definition ConstructTaskInfo (e : ExecutionState) : M W (option TaskInfo) :=
  let logs := [] in
  t <- now ;;
  if negb (String.eqb (CommandId e) "") then
    let logs := logs ++ [ConstructTaskLog e] in
    ret (Some (mkTaskInfo logs t))
  else ret None.

Definition MapExecutionStateToPhaseInfo (state : ExecutionState)
  : M W PhaseInfo :=
  let phaseInfo := PhaseInfoZero in
  t <- now ;;
  if Phase state =? PhaseNotStarted then
    ret (PhaseInfoNotReady t DefaultPhaseVersion "Haven't received allocation token")
  else if Phase state =? PhaseQueued then
    if CreationFailureCount state >? 5 then
      ret (PhaseInfoSystemRetryableFailure "QuboleFailure"
             "Too many creation attempts" None)
    else
      ret (PhaseInfoQueued t (to_uint32 (CreationFailureCount state))
             "Waiting for Qubole launch")
  else if Phase state =? PhaseSubmitted then
    info <- ConstructTaskInfo state ;;
    ret (PhaseInfoRunning DefaultPhaseVersion info)
  else if Phase state =? PhaseQuerySucceeded then
    info <- ConstructTaskInfo state ;;
    ret (PhaseInfoSuccess info)
  else if Phase state =? PhaseQueryFailed then
    info <- ConstructTaskInfo state ;;
    ret (PhaseInfoFailure DownstreamSystemError "Query failed" info)
  else ret phaseInfo.

Definition InTerminalState (e : ExecutionState) : bool :=
  (Phase e =? PhaseQuerySucceeded) || (Phase e =? PhaseQueryFailed).

Definition IsNotYetSubmitted (e : ExecutionState) : bool :=
  if (Phase e =? PhaseNotStarted) || (Phase e =? PhaseQueued) then true
  else false.

Definition Abort (tCtx : TaskExecutionMetadata) (currentState : ExecutionState)
  (apiKey : string) : M W (option error) :=
  if negb (InTerminalState currentState)
     && negb (String.eqb (CommandId currentState) "") then
    r <- call (CallKillCommand (CommandId currentState) apiKey)
              (KillCommand (CommandId currentState) apiKey) ;;
    match r with
    | Some err => ret (Some err)
    | None => ret None
    end
  else ret None.

Definition Finalize (tCtx : TaskExecutionMetadata) (_ : ExecutionState)
  : M W (option error) :=
  let uniqueId := GetGeneratedName tCtx in
  ns <- composeResourceNamespaceWithClusterPrimaryLabel tCtx ;;
  let (clusterPrimaryLabel, err) := ns in
  match err with
  | Some e =>
      ret (Some (Wrapf ResourceManagerFailure e
             ("Error getting query info when releasing allocation token " +:+ uniqueId)))
  | None =>
      r <- call (CallReleaseResource clusterPrimaryLabel uniqueId)
                (ReleaseResource clusterPrimaryLabel uniqueId) ;;
      match r with
      | Some e => ret (Some e)
      | None => ret None
      end
  end.

End Machine.

(** ** A simulated platform

    One implementation of [Platform], used to run the code on concrete
    inputs and to iterate the state machine.  The collaborators answer
    from a table of [Oracles]; the cache is a finite map. *)

Module Sim.

Record Oracles : Type := mkOracles {
  readAnswer : (QuboleHiveJob + error) + error;
  secretAnswer : string + error;
  allocateAnswer : AllocationStatus + error;
  releaseAnswer : option error;
  executeAnswer : QuboleCommandDetails + error;
  killAnswer : option error;
  cacheFailure : option error;
  clock : Time
}.

Record World : Type := mkWorld {
  cache : gmap string Item;
  oracles : Oracles
}.

Definition package (defaultLabel : string) (cfg : Config) : Package := {|
  Struct := QuboleHiveJob + error;
  UnmarshalStruct := fun s => s;
  DefaultClusterPrimaryLabel := defaultLabel;
  GetQuboleConfig := cfg
|}.

(** Modelled from the spec: the get-or-create contract of the auto-refresh
    cache (package [cache] of flytestdlib is not among the sources).  The
    first call for an id creates the entry from the seed; later calls hand
    back what the entry holds by then, not the seed.  A broken cache
    answers with its error and stores nothing. *)
Definition getOrCreate (id : string) (seed : Item) (w : World)
  : (Item + error) * World :=
  match cacheFailure (oracles w) with
  | Some e => (inr e, w)
  | None =>
      match cache w !! id with
      | Some it => (inl it, w)
      | None => (inl seed, mkWorld (<[id := seed]> (cache w)) (oracles w))
      end
  end.

(** Modelled from the spec: the background refresh of the cache (the sync
    function of the plugin is not among the sources).  It folds what it
    observed at the backend into a new state for the entry; the command id
    of the entry, set once at submission, stays. *)
Definition refreshItem (observed : ExecutionState) (it : Item) : Item :=
  match it with
  | StateItem c =>
      StateItem (mkCacheItem
        (withCommandId (CommandId (ItemState c)) observed) (Id c))
  | ForeignItem id => ForeignItem id
  end.

Definition refresh (id : string) (observed : ExecutionState) (w : World)
  : World :=
  mkWorld (alter (refreshItem observed) id (cache w)) (oracles w).

#[export] Instance platform (defaultLabel : string) (cfg : Config)
  : @Platform (package defaultLabel cfg) World := {|
  TaskReader_Read := fun w =>
    (match readAnswer (oracles w) with
     | inl custom => inl (@mkTaskTemplate (package defaultLabel cfg) custom)
     | inr e => inr e
     end, w);
  SecretManager_Get := fun _ w => (secretAnswer (oracles w), w);
  AllocateResource := fun _ _ w => (allocateAnswer (oracles w), w);
  ReleaseResource := fun _ _ w => (releaseAnswer (oracles w), w);
  ExecuteHiveCommand := fun _ _ _ _ _ w => (executeAnswer (oracles w), w);
  KillCommand := fun _ _ w => (killAnswer (oracles w), w);
  GetOrCreate := getOrCreate;
  time_Now := fun w => (clock (oracles w), w)
|}.

(** What can happen to one task between two observations: a
    reconciliation tick of the state machine (on an error the orchestrator
    keeps the state it had, or, with the flag set, stores the returned
    one), a change in what the collaborators will answer, or a background
    refresh of a cache entry. *)
Inductive Action : Type :=
| Tick (storeOnError : bool)
| Environment (o : Oracles)
| Refresh (id : string) (observed : ExecutionState).

Section Run.
Variables (defaultLabel : string) (quboleCfg : Config).
Variables (tCtx : TaskExecutionMetadata) (cfg : Config).

Definition tick (s : ExecutionState) (w : World)
  : (ExecutionState * option error) * (World * list Call) :=
  @HandleExecutionState (package defaultLabel quboleCfg) World
    (platform defaultLabel quboleCfg) tCtx s cfg (w, []).

Definition step (sw : ExecutionState * World) (a : Action)
  : ExecutionState * World :=
  match a with
  | Tick storeOnError =>
      let r := tick (fst sw) (snd sw) in
      match snd (fst r) with
      | None => (fst (fst r), fst (snd r))
      | Some _ =>
          if storeOnError then (fst (fst r), fst (snd r))
          else (fst sw, fst (snd r))
      end
  | Environment o => (fst sw, mkWorld (cache (snd sw)) o)
  | Refresh id observed => (fst sw, refresh id observed (snd sw))
  end.

Definition run (script : list Action) (start : ExecutionState * World)
  : ExecutionState * World :=
  fold_left step script start.

(** The task starts in the zero state, with nothing in the cache. *)
Definition initial (o : Oracles) : ExecutionState * World :=
  (zeroExecutionState, mkWorld ∅ o).

Definition reachable (s : ExecutionState) : Prop :=
  exists o script, fst (run script (initial o)) = s.

End Run.

(** Some answers to build worlds from. *)
Definition job (label : string) : QuboleHiveJob :=
  mkQuboleHiveJob label (Some (mkHiveQuery "select 1" 30 0)) [].

Definition calm : Oracles :=
  mkOracles (inl (inl (job ""))) (inl "key") (inl AllocationStatusGranted) None
    (inl (mkCommandDetails 123 "https://api.qubole.com/cmd/123")) None None 1000.

Definition withRead (r : (QuboleHiveJob + error) + error) (o : Oracles) :=
  mkOracles r (secretAnswer o) (allocateAnswer o) (releaseAnswer o)
    (executeAnswer o) (killAnswer o) (cacheFailure o) (clock o).
Definition withAllocate (a : AllocationStatus + error) (o : Oracles) :=
  mkOracles (readAnswer o) (secretAnswer o) a (releaseAnswer o)
    (executeAnswer o) (killAnswer o) (cacheFailure o) (clock o).
Definition withExecute (x : QuboleCommandDetails + error) (o : Oracles) :=
  mkOracles (readAnswer o) (secretAnswer o) (allocateAnswer o) (releaseAnswer o)
    x (killAnswer o) (cacheFailure o) (clock o).
Definition withCacheFailure (f : option error) (o : Oracles) :=
  mkOracles (readAnswer o) (secretAnswer o) (allocateAnswer o) (releaseAnswer o)
    (executeAnswer o) (killAnswer o) f (clock o).

Definition emptyConfig : Config := mkConfig "token" [] [].

Definition task : TaskExecutionMetadata :=
  mkMetadata "exec-n0-0" "p" "d" "p-d" [].

Definition world (o : Oracles) : World * list Call := (mkWorld ∅ o, []).

End Sim.

(** ** Notions used to state the properties *)

Section Notions.
Context {PK : Package} {W : Type} {PF : Platform W}.

(** A tick in world [w] gets as far as the create call and the backend
    refuses it: the secret is read, the query is extracted and
    [ExecuteHiveCommand] answers with an error. *)
Definition CreateFails (tCtx : TaskExecutionMetadata) (cfg : Config)
  (w : W * list Call) : Prop :=
  exists apiKey w1 query cluster tags timeoutSec w2 e w3,
    SecretManager_Get (TokenKey cfg) (fst w) = (inl apiKey, w1)
    /\ GetQueryInfo tCtx (w1, snd w ++ [CallSecretGet (TokenKey cfg)])
       = ((query, cluster, tags, timeoutSec, None), w2)
    /\ ExecuteHiveCommand query timeoutSec (getClusterPrimaryLabel tCtx cluster)
         apiKey tags (fst w2) = (inr e, w3).

(** Repeated ticks of [KickOffQuery], each in the world it finds, the state
    of one tick handed to the next. *)
Definition attempts (tCtx : TaskExecutionMetadata) (cfg : Config)
  (ws : list (W * list Call)) (s : ExecutionState) : ExecutionState :=
  fold_left (fun s w => fst (fst (KickOffQuery tCtx s cfg w))) ws s.

(** The state [KickOffQuery] has built by the time it registers the
    command [d] with the cache: the input at Submitted, with the command id
    in decimal and the URI of the command. *)
Definition advanced (d : QuboleCommandDetails) (s : ExecutionState)
  : ExecutionState :=
  withURI (CommandURI d)
    (withPhase PhaseSubmitted (withCommandId (FormatInt10 (ID d)) s)).

(** Where a tick at Queued can fail.  The secret manager answers with the
    error [e0]. *)
Definition SecretFails (cfg : Config) (w : W * list Call) (e0 : error) : Prop :=
  exists w1 : W, SecretManager_Get (TokenKey cfg) (fst w) = (inr e0, w1).

(** The secret is read and the query extraction answers with the error [e]. *)
Definition QueryInfoFails (tCtx : TaskExecutionMetadata) (cfg : Config)
  (w : W * list Call) (e : error) : Prop :=
  exists apiKey (w1 : W) query cluster tags timeoutSec w2,
    SecretManager_Get (TokenKey cfg) (fst w) = (inl apiKey, w1)
    /\ GetQueryInfo tCtx (w1, snd w ++ [CallSecretGet (TokenKey cfg)])
       = ((query, cluster, tags, timeoutSec, Some e), w2).

(** The secret is read, the query extracted, the backend creates the
    command [d], and the cache answers the registration of the advanced
    state with the error [e]. *)
Definition RegistrationFails (tCtx : TaskExecutionMetadata)
  (s : ExecutionState) (cfg : Config) (w : W * list Call)
  (d : QuboleCommandDetails) (e : error) : Prop :=
  exists apiKey (w1 : W) query cluster tags timeoutSec w2 (w3 w4 : W),
    SecretManager_Get (TokenKey cfg) (fst w) = (inl apiKey, w1)
    /\ GetQueryInfo tCtx (w1, snd w ++ [CallSecretGet (TokenKey cfg)])
       = ((query, cluster, tags, timeoutSec, None), w2)
    /\ ExecuteHiveCommand query timeoutSec (getClusterPrimaryLabel tCtx cluster)
         apiKey tags (fst w2) = (inl d, w3)
    /\ GetOrCreate (GetGeneratedName tCtx)
         (StateItem (mkCacheItem (advanced d s) (GetGeneratedName tCtx))) w3
       = (inr e, w4).

(** Where a tick at NotStarted can fail.  The namespace cannot be
    computed, the error being [e0]. *)
Definition NamespaceFails (tCtx : TaskExecutionMetadata) (w : W * list Call)
  (e0 : error) : Prop :=
  exists ns w1,
    composeResourceNamespaceWithClusterPrimaryLabel tCtx w = ((ns, Some e0), w1).

(** The namespace is computed and the allocator answers with the error [e0]. *)
Definition AllocationFails (tCtx : TaskExecutionMetadata) (w : W * list Call)
  (e0 : error) : Prop :=
  exists ns w1 (w2 : W),
    composeResourceNamespaceWithClusterPrimaryLabel tCtx w = ((ns, None), w1)
    /\ AllocateResource ns (GetGeneratedName tCtx) (fst w1) = (inr e0, w2).

(** The namespace is computed and the allocator answers with a status
    that is none of granted, exhausted and quota-exceeded; [t] is what the
    clock reads right after. *)
Definition AllocationUnknown (tCtx : TaskExecutionMetadata) (w : W * list Call)
  (t : Time) : Prop :=
  exists ns w1 (w2 : W),
    composeResourceNamespaceWithClusterPrimaryLabel tCtx w = ((ns, None), w1)
    /\ AllocateResource ns (GetGeneratedName tCtx) (fst w1)
       = (inl AllocationUndefined, w2)
    /\ t = fst (time_Now w2).

End Notions.

(** The invariant of the iteration: a state past Queued carries a command
    id, and so does every execution entry of the cache. *)
Definition hasCommandId (s : ExecutionState) : Prop := CommandId s <> "".

Definition stateInv (s : ExecutionState) : Prop :=
  Phase s = PhaseNotStarted \/ Phase s = PhaseQueued \/ hasCommandId s.

Definition cacheInv (w : Sim.World) : Prop :=
  forall k c, Sim.cache w !! k = Some (StateItem c) -> hasCommandId (ItemState c).

(** The label resolution in the words of the specification.  A label maps
    to a primary label when some cluster of the configuration lists it; the
    empty label maps to none.  When several clusters list it, the last one
    in the configuration gives the primary label. *)
Definition listsLabel (label : string) (c : ClusterConfig) : bool :=
  existsb (fun l => String.eqb l label) (Labels c).

Definition primaryLabelOf (cfg : Config) (label : string) : option string :=
  if String.eqb label "" then None
  else option_map PrimaryLabel
         (last (List.filter (listsLabel label) (ClusterConfigs cfg))).

(** The cluster label of the first entry for (project, domain). *)
Definition clusterLabelOf (cfg : Config) (project domain : string)
  : option string :=
  match List.filter (fun m => String.eqb project (Project m)
                         && String.eqb domain (Domain m))
          (DestinationClusterConfigs cfg) with
  | [] => None
  | m :: _ => Some (DestClusterLabel m)
  end.

Definition resolveNamespace (defaultLabel : string) (cfg : Config)
  (project domain override : string) : string :=
  match primaryLabelOf cfg override with
  | Some primary => primary
  | None =>
      match clusterLabelOf cfg project domain with
      | Some label =>
          match primaryLabelOf cfg label with
          | Some primary => primary
          | None => defaultLabel
          end
      | None => defaultLabel
      end
  end.

(** The scenario of the specification: "teamA" is a label of the cluster
    "prod-1", (p, d) is sent to "teamB", a label of the cluster "prod-2". *)
Definition scenarioConfig : Config :=
  mkConfig "token"
    [mkClusterConfig "prod-1" ["teamA"]; mkClusterConfig "prod-2" ["teamB"]]
    [mkDestinationClusterConfig "p" "d" "teamB"].

Definition scenarioPackage : Package := Sim.package "default" scenarioConfig.

Definition plainPackage : Package := Sim.package "default" Sim.emptyConfig.
Definition plainPlatform : @Platform plainPackage Sim.World :=
  Sim.platform "default" Sim.emptyConfig.

Definition queuedState : ExecutionState :=
  mkExecutionState PhaseQueued "" "" 0 2 1000.

Definition waitingState : ExecutionState :=
  mkExecutionState PhaseNotStarted "" "" 0 0 500.

Definition succeededState : ExecutionState :=
  mkExecutionState PhaseQuerySucceeded "123" "https://api.qubole.com/cmd/123" 0 0 1000.

Definition corruptState : ExecutionState :=
  mkExecutionState 7 "123" "https://api.qubole.com/cmd/123" 1 2 1000.

Definition overCeilingState : ExecutionState :=
  mkExecutionState PhaseQueued "" "" 0 6 1000.

(** Worlds in which one collaborator misbehaves. *)
Definition readBroken : Sim.Oracles :=
  Sim.withRead (inr (PlainError "task template unavailable")) Sim.calm.
Definition allocatorDown : Sim.Oracles :=
  Sim.withAllocate (inr (PlainError "allocator unreachable")) Sim.calm.
Definition allocatorExhausted : Sim.Oracles :=
  Sim.withAllocate (inl AllocationStatusExhausted) Sim.calm.
Definition createRefused : Sim.Oracles :=
  Sim.withExecute (inr (PlainError "503 from the backend")) Sim.calm.
Definition cacheBroken : Sim.Oracles :=
  Sim.withCacheFailure (Some (PlainError "cache is full")) Sim.calm.

(** The scenario of the specification: admission, submission as command
    123, a background refresh that saw the query succeed, and the tick that
    picks it up. *)
Definition observedSuccess : ExecutionState :=
  mkExecutionState PhaseQuerySucceeded "" "https://api.qubole.com/cmd/123" 0 0 1000.

Definition successScript : list Sim.Action :=
  [Sim.Tick false; Sim.Tick false;
   Sim.Refresh "exec-n0-0" observedSuccess; Sim.Tick false].

Definition scenarioTask (project domain : string) : TaskExecutionMetadata :=
  mkMetadata "exec-n0-0" project domain "ns" [].

(** More readers of the call log and of the results. *)
Definition is_execute (c : Call) : bool :=
  match c with CallExecuteHiveCommand _ _ _ _ _ => true | _ => false end.

Definition is_get_or_create (c : Call) : bool :=
  match c with CallGetOrCreate _ _ => true | _ => false end.

Definition is_allocate (c : Call) : bool :=
  match c with CallAllocateResource _ _ => true | _ => false end.

(** The code an error of the wrapper was built with. *)
Definition error_code (e : error) : option ErrorCode :=
  match e with
  | PlainError _ => None
  | TaskError c _ => Some c
  | TaskErrorWithCause c _ _ => Some c
  end.

(** The task info a phase info carries. *)
Definition taskInfoOf (p : PhaseInfo) : option TaskInfo :=
  match p with
  | PhaseInfoRunning _ info => info
  | PhaseInfoSuccess info => info
  | PhaseInfoFailure _ _ info => info
  | PhaseInfoSystemRetryableFailure _ _ info => info
  | _ => None
  end.

(** The tags among the five results of [GetQueryInfo]. *)
Definition queryTags (r : string * string * list string * Z * option error)
  : list string :=
  snd (fst (fst r)).

Definition BadPhaseName : string := "Bad Qubole execution phase".

Definition runningState : ExecutionState :=
  mkExecutionState PhaseSubmitted "123" "https://api.qubole.com/cmd/123" 0 2 1000.

Definition labelledTask : TaskExecutionMetadata :=
  mkMetadata "exec-n0-0" "p" "d" "p-d" [("team", "data"); ("tier", "gold")].

Definition taggedJob : QuboleHiveJob :=
  mkQuboleHiveJob "teamA" (Some (mkHiveQuery "select 1" 30 0)) ["nightly"].

Definition taggedWorld : Sim.Oracles :=
  Sim.withRead (inl (inl taggedJob)) Sim.calm.

Definition noQueryWorld : Sim.Oracles :=
  Sim.withRead (inl (inl (mkQuboleHiveJob "teamA" None []))) Sim.calm.

Definition secretMissing : Sim.Oracles :=
  Sim.mkOracles (Sim.readAnswer Sim.calm) (inr (PlainError "no such secret"))
    (Sim.allocateAnswer Sim.calm) (Sim.releaseAnswer Sim.calm)
    (Sim.executeAnswer Sim.calm) (Sim.killAnswer Sim.calm)
    (Sim.cacheFailure Sim.calm) (Sim.clock Sim.calm).

Definition killRefused : Sim.Oracles :=
  Sim.mkOracles (Sim.readAnswer Sim.calm) (Sim.secretAnswer Sim.calm)
    (Sim.allocateAnswer Sim.calm) (Sim.releaseAnswer Sim.calm)
    (Sim.executeAnswer Sim.calm) (Some (PlainError "command not found"))
    (Sim.cacheFailure Sim.calm) (Sim.clock Sim.calm).

Definition releaseRefused : Sim.Oracles :=
  Sim.mkOracles (Sim.readAnswer Sim.calm) (Sim.secretAnswer Sim.calm)
    (Sim.allocateAnswer Sim.calm) (Some (PlainError "token unknown"))
    (Sim.executeAnswer Sim.calm) (Sim.killAnswer Sim.calm)
    (Sim.cacheFailure Sim.calm) (Sim.clock Sim.calm).

(** A configuration in which two clusters list the same label. *)
Definition sharedLabelConfig : Config :=
  mkConfig "token"
    [mkClusterConfig "prod-1" ["teamA"; "shared"];
     mkClusterConfig "prod-2" ["teamB"; "shared"];
     mkClusterConfig "prod-3" ["teamC"]]
    [mkDestinationClusterConfig "p" "d" "teamB";
     mkDestinationClusterConfig "p" "d" "teamC"].

Definition sharedLabelPackage : Package := Sim.package "default" sharedLabelConfig.

Definition staleState : ExecutionState :=
  mkExecutionState PhaseNotStarted "77" "https://api.qubole.com/cmd/77" 3 4 0.

Definition allocatorConfused : Sim.Oracles :=
  Sim.withAllocate (inl AllocationUndefined) Sim.calm.

(** The world and the log a submission of [queuedState] leaves behind. *)
Definition registeredWorld : Sim.World :=
  Sim.mkWorld
    (<["exec-n0-0" := StateItem (mkCacheItem runningState "exec-n0-0")]> ∅)
    Sim.calm.

Definition submissionLog : list Call :=
  [CallSecretGet "token"; CallTaskRead;
   CallExecuteHiveCommand "select 1" 30 "default" "key" ["ns:p-d"];
   CallGetOrCreate "exec-n0-0" (StateItem (mkCacheItem runningState "exec-n0-0"))].

(** * Properties *)

Ltac unfold_monad := unfold bind, call, ret, now, observe, calls_of in *.

(** Case analysis on every answer the code inspects, innermost first. *)
Ltac crack :=
  repeat (simpl in *; match goal with
  | |- context [match ?x with _ => _ end] =>
      lazymatch x with
      | context [match _ with _ => _ end] => fail
      | _ => destruct x eqn:?
      end
  end); simpl in *.

Ltac phase_cases s :=
  unfold PhaseNotStarted, PhaseQueued, PhaseSubmitted, PhaseQuerySucceeded,
    PhaseQueryFailed in *;
  repeat match goal with
  | |- context [Phase s =? ?k] => destruct (Z.eqb_spec (Phase s) k)
  end.

Section Properties.
Context {PK : Package} {W : Type} {PF : Platform W}.

Implicit Types (tCtx : TaskExecutionMetadata) (s : ExecutionState)
  (cfg : Config) (w : W * list Call).

(** *** The dispatch of [HandleExecutionState] *)

Lemma handle_not_started tCtx s cfg :
  Phase s = PhaseNotStarted ->
  HandleExecutionState tCtx s cfg = GetAllocationToken tCtx s.
Proof. intros E. unfold HandleExecutionState. rewrite E. reflexivity. Qed.

Lemma handle_queued tCtx s cfg :
  Phase s = PhaseQueued ->
  HandleExecutionState tCtx s cfg = KickOffQuery tCtx s cfg.
Proof. intros E. unfold HandleExecutionState. rewrite E. reflexivity. Qed.

Lemma handle_submitted tCtx s cfg :
  Phase s = PhaseSubmitted ->
  HandleExecutionState tCtx s cfg = MonitorQuery tCtx s.
Proof. intros E. unfold HandleExecutionState. rewrite E. reflexivity. Qed.

Lemma handle_terminal tCtx s cfg w :
  Phase s = PhaseQuerySucceeded \/ Phase s = PhaseQueryFailed ->
  HandleExecutionState tCtx s cfg w = ((s, None), w).
Proof.
  intros [E | E]; unfold HandleExecutionState; rewrite E; reflexivity.
Qed.

(** The query extraction makes one call, the read of the task template. *)
Lemma GetQueryInfo_log tCtx w :
  snd (snd (GetQueryInfo tCtx w)) = snd w ++ [CallTaskRead].
Proof.
  unfold GetQueryInfo. unfold_monad. crack; reflexivity.
Qed.

Lemma compose_log tCtx w :
  snd (snd (composeResourceNamespaceWithClusterPrimaryLabel tCtx w))
  = snd w ++ [CallTaskRead].
Proof.
  unfold composeResourceNamespaceWithClusterPrimaryLabel, bind.
  pose proof (GetQueryInfo_log tCtx w) as L.
  destruct (GetQueryInfo tCtx w) as [[[[[q c] t] ts] [e|]] w1]; exact L.
Qed.

(** C10.  A state whose phase is none of the five constants is answered
    with the zero state and a nil error: no case of the switch applies, no
    collaborator is called, and the corrupt phase is not reported. *)
Theorem handle_unknown_phase_resets tCtx s cfg w :
  Phase s < 0 \/ 4 < Phase s ->
  HandleExecutionState tCtx s cfg w = ((zeroExecutionState, None), w)
  /\ Phase zeroExecutionState = PhaseNotStarted
  /\ CommandId zeroExecutionState = ""
  /\ URI zeroExecutionState = ""
  /\ SyncFailureCount zeroExecutionState = 0
  /\ CreationFailureCount zeroExecutionState = 0
  /\ IsZero (AllocationTokenRequestStartTime zeroExecutionState) = true.
Proof.
  intros Hp. split; [|repeat split].
  unfold HandleExecutionState.
  assert (E : forall k, 0 <= k <= 4 -> (Phase s =? k) = false)
    by (intros; apply Z.eqb_neq; lia).
  unfold PhaseNotStarted, PhaseQueued, PhaseSubmitted, PhaseQuerySucceeded,
    PhaseQueryFailed.
  rewrite !E by lia. reflexivity.
Qed.

(** C9.  In a terminal phase [Abort] calls nothing and returns nil; a
    [KillCommand] call is made only in a non-terminal phase with a command
    id, and then it is the one call, for that command id. *)
Theorem abort_terminal_guard tCtx s apiKey (w : W) :
  (Phase s = PhaseQuerySucceeded \/ Phase s = PhaseQueryFailed ->
     fst (Abort tCtx s apiKey (w, [])) = None
     /\ calls_of (Abort tCtx s apiKey (w, [])) = [])
  /\ (forall c, In c (calls_of (Abort tCtx s apiKey (w, []))) ->
        is_kill c = true ->
        Phase s <> PhaseQuerySucceeded /\ Phase s <> PhaseQueryFailed
        /\ CommandId s <> "")
  /\ (Phase s <> PhaseQuerySucceeded -> Phase s <> PhaseQueryFailed ->
      CommandId s <> "" ->
      calls_of (Abort tCtx s apiKey (w, [])) = [CallKillCommand (CommandId s) apiKey]).
Proof.
  unfold Abort, InTerminalState, calls_of.
  destruct (String.eqb_spec (CommandId s) "") as [Ec | Ec];
    phase_cases s; unfold_monad; simpl.
  all: repeat split; try tauto; try lia; try congruence.
  all: try (intros [? | ?]; try lia; split; reflexivity).
  all: try (destruct (KillCommand (CommandId s) apiKey w) as [[e|] w']; reflexivity).
  all: try (destruct (KillCommand (CommandId s) apiKey w) as [[e|] w'];
            simpl; intros c [<- | []] _; congruence).
Qed.

(** *** Finalize *)

(** C1 (as amended).  Whatever the state, [Finalize] releases the token
    exactly once when the resource namespace can be computed: the release
    is its last call, for that namespace and the generated name of the
    task.  When computing the namespace fails, [Finalize] returns that
    error wrapped as a resource manager failure and makes no release call. *)
Theorem finalize_releases_when_namespace_known tCtx s (w : W) :
  let ns := fst (composeResourceNamespaceWithClusterPrimaryLabel tCtx (w, [])) in
  match snd ns with
  | None =>
      calls_of (Finalize tCtx s (w, []))
        = [CallTaskRead; CallReleaseResource (fst ns) (GetGeneratedName tCtx)]
      /\ count_calls is_release (calls_of (Finalize tCtx s (w, []))) = 1%nat
  | Some e =>
      fst (Finalize tCtx s (w, []))
        = Some (Wrapf ResourceManagerFailure e
            ("Error getting query info when releasing allocation token "
             +:+ GetGeneratedName tCtx))
      /\ count_calls is_release (calls_of (Finalize tCtx s (w, []))) = 0%nat
  end.
Proof.
  unfold Finalize, bind, calls_of. simpl.
  pose proof (compose_log tCtx (w, [])) as L.
  destruct (composeResourceNamespaceWithClusterPrimaryLabel tCtx (w, []))
    as [[ns [e|]] [w1 l1]]; simpl in *; subst l1.
  - split; reflexivity.
  - unfold call, ret. simpl.
    destruct (ReleaseResource ns (GetGeneratedName tCtx) w1) as [[e|] w2];
      split; reflexivity.
Qed.

(** *** The projector *)

(** C7.  At phase Queued the projector reports the system-retryable
    failure exactly when the failure count is above 5 (so at 6), and
    otherwise the queued phase, read at the clock, whose version is the
    count converted to [uint32]: the count itself, counts being
    non-negative. *)
Theorem projector_queued_ceiling s w :
  Phase s = PhaseQueued ->
  fst (MapExecutionStateToPhaseInfo s w)
  = (if 5 <? CreationFailureCount s
     then PhaseInfoSystemRetryableFailure "QuboleFailure"
            "Too many creation attempts" None
     else PhaseInfoQueued (fst (time_Now (fst w)))
            (to_uint32 (CreationFailureCount s)) "Waiting for Qubole launch")
  /\ (0 <= CreationFailureCount s <= 5 ->
      to_uint32 (CreationFailureCount s) = CreationFailureCount s).
Proof.
  intros Ep. split.
  - unfold MapExecutionStateToPhaseInfo, bind, now, ret.
    rewrite Ep. simpl.
    destruct (time_Now (fst w)) as [t w1]. simpl.
    rewrite Z.gtb_ltb.
    destruct (Z.ltb_spec 5 (CreationFailureCount s)); reflexivity.
  - intros Hc. unfold to_uint32. apply Z.mod_small. lia.
Qed.

(** *** Admission *)

(** C5.  When the namespace is computed and the allocator answers
    Exhausted or NamespaceQuotaExceeded, [GetAllocationToken] returns a nil
    error and a state at NotStarted whose creation failure count is zero,
    hence not above the count it was given; the request start time is the
    one of the input when that is set, and the clock reading otherwise. *)
Theorem allocation_denied_stays_not_started tCtx s w ns w1 status (w2 : W) :
  composeResourceNamespaceWithClusterPrimaryLabel tCtx w = ((ns, None), w1) ->
  AllocateResource ns (GetGeneratedName tCtx) (fst w1) = (inl status, w2) ->
  status = AllocationStatusExhausted
  \/ status = AllocationStatusNamespaceQuotaExceeded ->
  let r := fst (GetAllocationToken tCtx s w) in
  snd r = None
  /\ Phase (fst r) = PhaseNotStarted
  /\ CreationFailureCount (fst r) = 0
  /\ (0 <= CreationFailureCount s ->
      CreationFailureCount (fst r) <= CreationFailureCount s)
  /\ AllocationTokenRequestStartTime (fst r)
     = (if IsZero (AllocationTokenRequestStartTime s)
        then fst (time_Now w2)
        else AllocationTokenRequestStartTime s).
Proof.
  intros Hns Hal Hst. unfold GetAllocationToken, bind. rewrite Hns.
  unfold call. rewrite Hal. simpl.
  destruct (IsZero (AllocationTokenRequestStartTime s)); unfold now, ret, observe;
    simpl; destruct (time_Now w2) as [t w3]; simpl;
    try destruct (time_Now w3) as [t' w4]; simpl;
    destruct Hst as [-> | ->]; simpl; repeat split; auto.
Qed.

(** *** Creation *)

Lemma kick_off_create_failed tCtx s cfg w :
  CreateFails tCtx cfg w ->
  fst (KickOffQuery tCtx s cfg w)
  = (withCreationFailureCount (int_add (CreationFailureCount s) 1) s, None).
Proof.
  intros (apiKey & w1 & query & cluster & tags & timeoutSec & w2 & e & w3
          & Hs & Hq & He).
  unfold KickOffQuery, bind, call. rewrite Hs. simpl. rewrite Hq. simpl.
  rewrite He. reflexivity.
Qed.

Lemma int_add_no_overflow a b :
  min_int <= a + b <= max_int -> int_add a b = a + b.
Proof.
  unfold int_add, wrap_int, min_int, max_int. intros Hr.
  rewrite Z.mod_small by lia. lia.
Qed.

Lemma attempts_create_failed tCtx cfg ws : forall s,
  Forall (CreateFails tCtx cfg) ws ->
  0 <= CreationFailureCount s ->
  CreationFailureCount s + Z.of_nat (length ws) <= max_int ->
  attempts tCtx cfg ws s
  = withCreationFailureCount (CreationFailureCount s + Z.of_nat (length ws)) s.
Proof.
  induction ws as [|w ws IH]; intros s Hf H0 Hmax.
  - simpl. rewrite Z.add_0_r. destruct s; reflexivity.
  - inversion Hf as [|? ? Hw Hws]; subst.
    unfold attempts in *. simpl fold_left.
    rewrite (kick_off_create_failed tCtx s cfg w Hw). simpl fst.
    rewrite int_add_no_overflow
      by (unfold min_int, max_int in *; simpl length in Hmax; lia).
    rewrite IH; auto; simpl in *; try lia.
    unfold withCreationFailureCount. simpl. f_equal. lia.
Qed.

(** C6.  A tick at Queued whose create call is refused returns, with a nil
    error, the state it was given with the creation failure count one
    higher (the count being below the largest [int]), so phase and command
    id are kept; and over any run of such ticks the count goes up by the
    number of ticks, so it never decreases and is never reset. *)
Theorem create_failure_counts_up tCtx s cfg w ws :
  Phase s = PhaseQueued ->
  0 <= CreationFailureCount s ->
  CreationFailureCount s + 1 + Z.of_nat (length ws) <= max_int ->
  CreateFails tCtx cfg w ->
  Forall (CreateFails tCtx cfg) ws ->
  let s1 := fst (fst (KickOffQuery tCtx s cfg w)) in
  let sn := attempts tCtx cfg ws s1 in
  snd (fst (KickOffQuery tCtx s cfg w)) = None
  /\ CreationFailureCount s1 = CreationFailureCount s + 1
  /\ Phase s1 = PhaseQueued
  /\ CommandId s1 = CommandId s
  /\ s1 = withCreationFailureCount (CreationFailureCount s + 1) s
  /\ CreationFailureCount sn = CreationFailureCount s1 + Z.of_nat (length ws)
  /\ CreationFailureCount s1 <= CreationFailureCount sn
  /\ Phase sn = PhaseQueued
  /\ CommandId sn = CommandId s.
Proof.
  intros Ep H0 Hmax Hw Hws. simpl.
  rewrite (kick_off_create_failed tCtx s cfg w Hw). simpl fst. simpl snd.
  rewrite int_add_no_overflow by (unfold min_int, max_int in *; lia).
  rewrite attempts_create_failed; simpl; auto; try lia.
  repeat split; auto; lia.
Qed.

(** *** What comes back with an error *)

Ltac crack_inv :=
  crack; intros Heq; inversion Heq; subst; clear Heq.

Lemma GetAllocationToken_error_tagged tCtx s w s' e w' :
  GetAllocationToken tCtx s w = ((s', Some e), w') ->
  carries_taxonomy_kind e = true.
Proof.
  unfold GetAllocationToken, composeResourceNamespaceWithClusterPrimaryLabel.
  unfold_monad. crack_inv; reflexivity.
Qed.

Lemma MonitorQuery_error_state tCtx s w s' e w' :
  MonitorQuery tCtx s w = ((s', Some e), w') -> s' = s.
Proof. unfold MonitorQuery. unfold_monad. crack_inv; reflexivity. Qed.

Lemma MonitorQuery_error_tagged tCtx s w s' e w' :
  MonitorQuery tCtx s w = ((s', Some e), w') ->
  carries_taxonomy_kind e = true.
Proof. unfold MonitorQuery. unfold_monad. crack_inv; reflexivity. Qed.

(** Where an error of [KickOffQuery] comes from: it is tagged by the
    wrapper, or it is the error of the query extraction, or the error of
    the cache, as the collaborator made it. *)
Lemma KickOffQuery_error_origin tCtx s cfg w s' e w' :
  KickOffQuery tCtx s cfg w = ((s', Some e), w') ->
  carries_taxonomy_kind e = true
  \/ (exists w0, snd (fst (GetQueryInfo tCtx w0)) = Some e)
  \/ (exists id it (w0 w1 : W), GetOrCreate id it w0 = (inr e, w1)).
Proof.
  unfold KickOffQuery, bind.
  destruct (call (CallSecretGet (TokenKey cfg)) (SecretManager_Get (TokenKey cfg)) w)
    as [[apiKey | e0] w1] eqn:Ek.
  - destruct (GetQueryInfo tCtx w1) as [[[[[q c] ts] t] [eq|]] w2] eqn:Eq.
    + intros [= <- <- <-]. right; left. exists w1. rewrite Eq. reflexivity.
    + unfold call, ret. simpl.
      destruct (ExecuteHiveCommand _ _ _ _ _ _) as [[d | ex] w3];
        simpl; [|discriminate].
      destruct (GetOrCreate _ _ _) as [[it | eg] w4] eqn:Eg;
        simpl; [discriminate|].
      intros [= <- <- <-]. right; right. eauto.
  - intros [= <- <- <-]. left. reflexivity.
Qed.

Lemma KickOffQuery_error_cases tCtx s cfg w s' e w' :
  KickOffQuery tCtx s cfg w = ((s', Some e), w') ->
  (exists e0, SecretFails cfg w e0
     /\ e = Wrapf RuntimeFailure e0 "Failed to read token from secrets manager"
     /\ s' = s)
  \/ (QueryInfoFails tCtx cfg w e /\ s' = s)
  \/ (exists d, RegistrationFails tCtx s cfg w d e /\ s' = advanced d s).
Proof.
  unfold KickOffQuery, bind, call.
  destruct (SecretManager_Get (TokenKey cfg) (fst w)) as [[apiKey | e0] w1] eqn:Es;
    simpl.
  - destruct (GetQueryInfo tCtx (w1, snd w ++ [CallSecretGet (TokenKey cfg)]))
      as [[[[[query cluster] tags] timeoutSec] [eq|]] w2] eqn:Eq; simpl.
    + intros [= <- <- <-]. right; left. split; [|reflexivity].
      exists apiKey, w1, query, cluster, tags, timeoutSec, w2. rewrite Es.
      split; [reflexivity | assumption].
    + destruct (ExecuteHiveCommand query timeoutSec
                  (getClusterPrimaryLabel tCtx cluster) apiKey tags (fst w2))
        as [[d | ex] w3] eqn:Ex; simpl; [|discriminate].
      fold (advanced d s).
      destruct (GetOrCreate (GetGeneratedName tCtx)
                  (StateItem (mkCacheItem (advanced d s) (GetGeneratedName tCtx))) w3)
        as [[it | eg] w4] eqn:Eg; simpl; [discriminate|].
      intros [= <- <- <-]. right; right. exists d. split; [|reflexivity].
      exists apiKey, w1, query, cluster, tags, timeoutSec, w2, w3, w4.
      rewrite Es. repeat split; assumption.
  - intros [= <- <- <-]. left. exists e0. split; [exists w1; rewrite Es; reflexivity|].
    split; reflexivity.
Qed.

Lemma GetAllocationToken_error_cases tCtx s w s' e w' :
  GetAllocationToken tCtx s w = ((s', Some e), w') ->
  (exists e0, NamespaceFails tCtx w e0 /\ s' = zeroExecutionState)
  \/ (exists e0, AllocationFails tCtx w e0 /\ s' = zeroExecutionState)
  \/ (exists t, AllocationUnknown tCtx w t
        /\ s' = withAllocationTokenRequestStartTime
                  (if IsZero (AllocationTokenRequestStartTime s)
                   then t else AllocationTokenRequestStartTime s)
                  zeroExecutionState).
Proof.
  unfold GetAllocationToken, bind.
  destruct (composeResourceNamespaceWithClusterPrimaryLabel tCtx w)
    as [[ns [e0|]] w1] eqn:En; simpl.
  - intros [= <- <- <-]. left. exists e0. split; [|reflexivity].
    exists ns, w1. exact En.
  - unfold call.
    destruct (AllocateResource ns (GetGeneratedName tCtx) (fst w1))
      as [[status | e0] w2] eqn:Ea; simpl.
    + destruct (IsZero (AllocationTokenRequestStartTime s)) eqn:Ez;
        unfold now, ret, observe; simpl;
        destruct (time_Now w2) as [t w3] eqn:Et; simpl;
        try (destruct (time_Now w3) as [t' w4]; simpl);
        destruct status; simpl; intros Heq; inversion Heq; subst; clear Heq;
        right; right; exists t; (split; [|reflexivity]);
        exists ns, w1, w2; rewrite Et; repeat split; try assumption;
        reflexivity.
    + intros [= <- <- <-]. right; left. exists e0. split; [|reflexivity].
      exists ns, w1, w2. split; assumption.
Qed.

Lemma kick_off_secret_failure tCtx s cfg w e0 :
  SecretFails cfg w e0 ->
  fst (KickOffQuery tCtx s cfg w)
  = (s, Some (Wrapf RuntimeFailure e0 "Failed to read token from secrets manager")).
Proof.
  intros [w1 Hs]. unfold KickOffQuery, bind, call. rewrite Hs. reflexivity.
Qed.

Lemma kick_off_query_info_failure tCtx s cfg w e :
  QueryInfoFails tCtx cfg w e ->
  fst (KickOffQuery tCtx s cfg w) = (s, Some e).
Proof.
  intros (apiKey & w1 & query & cluster & tags & timeoutSec & w2 & Hs & Hq).
  unfold KickOffQuery, bind, call. rewrite Hs. simpl. rewrite Hq. reflexivity.
Qed.

Lemma kick_off_registration_failure tCtx s cfg w d e :
  RegistrationFails tCtx s cfg w d e ->
  fst (KickOffQuery tCtx s cfg w) = (advanced d s, Some e).
Proof.
  intros (apiKey & w1 & query & cluster & tags & timeoutSec & w2 & w3 & w4
          & Hs & Hq & Hx & Hg).
  unfold KickOffQuery, bind, call. rewrite Hs. simpl. rewrite Hq. simpl.
  rewrite Hx. simpl. fold (advanced d s). rewrite Hg. reflexivity.
Qed.

(** C2 (as amended).  When the transition function returns an error, the
    state that comes with it is the input state at Submitted.  At Queued it
    is the input state when the tick fails before the create call, at the
    secret or at the query extraction; and when the command [d] was created
    and registering it with the cache failed, it is the input state
    advanced to Submitted with the id and URI of [d]: in each direction,
    the failure gives that state and the error, and an error can only come
    from one of these failures.  At NotStarted it is the zero state when the
    namespace or the allocator fails, and the zero state with the request
    start time when the allocator answers with an unknown status.  No other
    phase returns an error. *)
Theorem error_state_by_phase tCtx s cfg w :
  (forall s' e w',
     HandleExecutionState tCtx s cfg w = ((s', Some e), w') ->
     (Phase s = PhaseSubmitted /\ s' = s)
     \/ (Phase s = PhaseQueued
         /\ ((exists e0, SecretFails cfg w e0
                /\ e = Wrapf RuntimeFailure e0
                         "Failed to read token from secrets manager"
                /\ s' = s)
             \/ (QueryInfoFails tCtx cfg w e /\ s' = s)
             \/ (exists d, RegistrationFails tCtx s cfg w d e
                   /\ s' = advanced d s)))
     \/ (Phase s = PhaseNotStarted
         /\ ((exists e0, NamespaceFails tCtx w e0 /\ s' = zeroExecutionState)
             \/ (exists e0, AllocationFails tCtx w e0 /\ s' = zeroExecutionState)
             \/ (exists t, AllocationUnknown tCtx w t
                   /\ s' = withAllocationTokenRequestStartTime
                             (if IsZero (AllocationTokenRequestStartTime s)
                              then t else AllocationTokenRequestStartTime s)
                             zeroExecutionState))))
  /\ (Phase s = PhaseQueued ->
      (forall e0, SecretFails cfg w e0 ->
         fst (HandleExecutionState tCtx s cfg w)
         = (s, Some (Wrapf RuntimeFailure e0
                       "Failed to read token from secrets manager")))
      /\ (forall e, QueryInfoFails tCtx cfg w e ->
            fst (HandleExecutionState tCtx s cfg w) = (s, Some e))
      /\ (forall d e, RegistrationFails tCtx s cfg w d e ->
            fst (HandleExecutionState tCtx s cfg w) = (advanced d s, Some e)
            /\ advanced d s <> s)).
Proof.
  split.
  - intros s' e w'. unfold HandleExecutionState. phase_cases s; intros Hh.
    + right; right. split; [assumption|].
      eapply GetAllocationToken_error_cases; eassumption.
    + right; left. split; [assumption|].
      eapply KickOffQuery_error_cases; eassumption.
    + left. split; [assumption|].
      eapply MonitorQuery_error_state; eassumption.
    + discriminate.
    + discriminate.
    + discriminate.
  - intros Hq. rewrite handle_queued by assumption. repeat split.
    + intros e0. apply kick_off_secret_failure.
    + intros e. apply kick_off_query_info_failure.
    + apply kick_off_registration_failure. assumption.
    + intros Heq. apply (f_equal Phase) in Heq. simpl in Heq.
      rewrite Hq in Heq. discriminate Heq.
Qed.

End Properties.

(** *** The resource namespace *)

Section Namespace.
Context {PK : Package}.

Lemma scanLabels_spec c label labels acc :
  scanLabels c label labels acc
  = if negb (String.eqb label "")
       && existsb (fun l => String.eqb l label) labels
    then (PrimaryLabel c, true) else acc.
Proof.
  induction labels as [|l rest IH]; simpl.
  - rewrite andb_false_r. reflexivity.
  - destruct (String.eqb label ""); simpl in *; [assumption|].
    destruct (String.eqb l label); simpl; [reflexivity | assumption].
Qed.

Lemma scanClusters_spec label cfgs : forall acc,
  String.eqb label "" = false ->
  scanClusters label cfgs acc
  = match last (List.filter (listsLabel label) cfgs) with
    | Some c => (PrimaryLabel c, true)
    | None => acc
    end.
Proof.
  induction cfgs as [|c rest IH]; intros acc Hl; simpl; [reflexivity|].
  rewrite IH by assumption. rewrite scanLabels_spec, Hl. simpl.
  unfold listsLabel at 2.
  destruct (existsb (fun l => String.eqb l label) (Labels c)).
  - rewrite last_cons.
    destruct (last (List.filter (listsLabel label) rest)); reflexivity.
  - reflexivity.
Qed.

Lemma mapLabelToPrimaryLabel_spec cfg label :
  mapLabelToPrimaryLabel cfg label
  = match primaryLabelOf cfg label with
    | Some primary => (primary, true)
    | None => (DefaultClusterPrimaryLabel, false)
    end.
Proof.
  unfold mapLabelToPrimaryLabel, primaryLabelOf.
  destruct (String.eqb label "") eqn:El; [reflexivity|].
  rewrite scanClusters_spec by assumption.
  destruct (last (List.filter (listsLabel label) (ClusterConfigs cfg)));
    reflexivity.
Qed.

Lemma scanDestinations_spec project domain ms :
  scanDestinations project domain ms
  = match List.filter (fun m => String.eqb project (Project m)
                                && String.eqb domain (Domain m)) ms with
    | [] => ("", false)
    | m :: _ => (DestClusterLabel m, true)
    end.
Proof.
  induction ms as [|m rest IH]; simpl; [reflexivity|].
  destruct (String.eqb project (Project m) && String.eqb domain (Domain m));
    [reflexivity | assumption].
Qed.

Lemma mapProjectDomain_spec tCtx cfg :
  mapProjectDomainToDestinationClusterLabel tCtx cfg
  = match clusterLabelOf cfg (GetProject tCtx) (GetDomain tCtx) with
    | Some label => (label, true)
    | None => ("", false)
    end.
Proof.
  unfold mapProjectDomainToDestinationClusterLabel, clusterLabelOf.
  rewrite scanDestinations_spec.
  destruct (List.filter _ (DestinationClusterConfigs cfg)); reflexivity.
Qed.

(** What "maps to a primary label" means in the configuration. *)
Lemma primaryLabelOf_Some cfg label primary :
  primaryLabelOf cfg label = Some primary ->
  label <> ""
  /\ exists c, In c (ClusterConfigs cfg) /\ In label (Labels c)
               /\ PrimaryLabel c = primary.
Proof.
  unfold primaryLabelOf.
  destruct (String.eqb_spec label "") as [|Hne]; [discriminate|].
  destruct (last (List.filter (listsLabel label) (ClusterConfigs cfg)))
    as [c|] eqn:El; [|discriminate].
  intros [= <-]. split; [assumption|]. exists c.
  apply last_Some_elem_of, list_elem_of_In, filter_In in El.
  destruct El as [Hin Hl]. repeat split; try assumption.
  unfold listsLabel in Hl. apply existsb_exists in Hl.
  destruct Hl as (l & Hl & Heq). apply String.eqb_eq in Heq. subst. assumption.
Qed.

Lemma primaryLabelOf_None cfg label :
  primaryLabelOf cfg label = None ->
  label = "" \/ forall c, In c (ClusterConfigs cfg) -> ~ In label (Labels c).
Proof.
  unfold primaryLabelOf.
  destruct (String.eqb_spec label "") as [|Hne]; [auto|].
  destruct (last (List.filter (listsLabel label) (ClusterConfigs cfg)))
    as [c|] eqn:El; [discriminate|]. intros _. right. intros c Hc Hl.
  apply last_None in El.
  assert (Hin : In c (List.filter (listsLabel label) (ClusterConfigs cfg))).
  { apply filter_In. split; [assumption|]. unfold listsLabel.
    apply existsb_exists. exists label. split; [assumption|].
    apply String.eqb_refl. }
  rewrite El in Hin. destruct Hin.
Qed.

Lemma clusterLabelOf_Some cfg project domain label :
  clusterLabelOf cfg project domain = Some label ->
  exists m, In m (DestinationClusterConfigs cfg)
            /\ Project m = project /\ Domain m = domain
            /\ DestClusterLabel m = label.
Proof.
  unfold clusterLabelOf.
  destruct (List.filter _ (DestinationClusterConfigs cfg)) as [|m rest] eqn:Ef;
    [discriminate|].
  intros [= <-]. exists m.
  assert (Hin : In m (m :: rest)) by (left; reflexivity).
  rewrite <- Ef in Hin. apply filter_In in Hin. destruct Hin as [Hin Hb].
  apply andb_true_iff in Hb. destruct Hb as [Hp Hd].
  apply String.eqb_eq in Hp. apply String.eqb_eq in Hd. auto.
Qed.

(** C8.  The primary label of a task is a function of the configuration,
    the task's project and domain and the override label, by this
    precedence: the primary label the override maps to, when it is not
    empty and maps to one; else the primary label of the cluster label the
    (project, domain) pair maps to; else the default primary label.  A
    cluster label that maps to no primary label gives the default too. *)
Theorem namespace_precedence tCtx override :
  let cfg := GetQuboleConfig in
  let result := getClusterPrimaryLabel tCtx override in
  let viaProjectDomain := clusterLabelOf cfg (GetProject tCtx) (GetDomain tCtx) in
  result = resolveNamespace DefaultClusterPrimaryLabel cfg
             (GetProject tCtx) (GetDomain tCtx) override
  /\ (forall primary,
        primaryLabelOf cfg override = Some primary -> result = primary)
  /\ (forall label primary,
        primaryLabelOf cfg override = None ->
        viaProjectDomain = Some label ->
        primaryLabelOf cfg label = Some primary -> result = primary)
  /\ (forall label,
        primaryLabelOf cfg override = None ->
        viaProjectDomain = Some label ->
        primaryLabelOf cfg label = None -> result = DefaultClusterPrimaryLabel)
  /\ (primaryLabelOf cfg override = None ->
      viaProjectDomain = None -> result = DefaultClusterPrimaryLabel).
Proof.
  intros cfg result viaPD.
  assert (E : result = resolveNamespace DefaultClusterPrimaryLabel cfg
                         (GetProject tCtx) (GetDomain tCtx) override).
  { subst result viaPD. unfold getClusterPrimaryLabel, resolveNamespace.
    fold cfg. rewrite mapProjectDomain_spec.
    rewrite (mapLabelToPrimaryLabel_spec cfg override).
    assert (Hemp : String.eqb override "" = true ->
                   primaryLabelOf cfg override = None)
      by (intros Hx; unfold primaryLabelOf; rewrite Hx; reflexivity).
    destruct (String.eqb override "") eqn:Eo; simpl.
    - rewrite Hemp by reflexivity.
      destruct (clusterLabelOf cfg (GetProject tCtx) (GetDomain tCtx));
        [|reflexivity].
      rewrite mapLabelToPrimaryLabel_spec.
      destruct (primaryLabelOf cfg s); reflexivity.
    - destruct (primaryLabelOf cfg override); [reflexivity|].
      destruct (clusterLabelOf cfg (GetProject tCtx) (GetDomain tCtx));
        [|reflexivity].
      rewrite mapLabelToPrimaryLabel_spec.
      destruct (primaryLabelOf cfg s); reflexivity. }
  split; [exact E|]. rewrite E. unfold resolveNamespace. subst viaPD.
  repeat split.
  - intros primary ->. reflexivity.
  - intros label primary -> -> ->. reflexivity.
  - intros label -> -> ->. reflexivity.
  - intros -> ->. reflexivity.
Qed.

End Namespace.

(** *** Iterating the state machine *)

Lemma FormatInt10_nonempty i : FormatInt10 i <> "".
Proof.
  unfold FormatInt10. destruct (Z.to_int i) as [d | d]; simpl.
  - destruct d; simpl; discriminate.
  - discriminate.
Qed.

Section Iteration.
Variables (defaultLabel : string) (quboleCfg : Config).
Variables (tCtx : TaskExecutionMetadata) (cfg : Config).

Local Abbreviation tick := (Sim.tick defaultLabel quboleCfg tCtx cfg).
Local Abbreviation step := (Sim.step defaultLabel quboleCfg tCtx cfg).
Local Abbreviation run := (Sim.run defaultLabel quboleCfg tCtx cfg).

Lemma getOrCreate_keeps_inv id c w r w' :
  cacheInv w -> hasCommandId (ItemState c) ->
  Sim.getOrCreate id (StateItem c) w = (r, w') ->
  cacheInv w'
  /\ (forall c', r = inl (StateItem c') -> hasCommandId (ItemState c')).
Proof.
  intros Hc Hi. unfold Sim.getOrCreate.
  destruct (Sim.cacheFailure (Sim.oracles w)) as [e|].
  - intros [= <- <-]. split; [assumption | discriminate].
  - destruct (Sim.cache w !! id) as [it|] eqn:El; intros [= <- <-].
    + split; [assumption|]. intros c' [= ->]. eapply Hc; eassumption.
    + split; [|intros c' [= <-]; assumption].
      intros k c'. simpl. rewrite lookup_insert.
      case_decide; [intros [= <-]; assumption | apply Hc].
Qed.

Lemma stateInv_submitted s d :
  stateInv (withURI (CommandURI d)
              (withPhase PhaseSubmitted (withCommandId (FormatInt10 (ID d)) s))).
Proof. right; right. apply FormatInt10_nonempty. Qed.

Lemma stateInv_count s n :
  stateInv s -> stateInv (withCreationFailureCount n s).
Proof. intros Hs. exact Hs. Qed.

Lemma tick_keeps_inv s w :
  stateInv s -> cacheInv w ->
  stateInv (fst (fst (tick s w))) /\ cacheInv (fst (snd (tick s w))).
Proof.
  intros Hs Hc. unfold Sim.tick, HandleExecutionState.
  phase_cases s.
  - unfold GetAllocationToken, composeResourceNamespaceWithClusterPrimaryLabel,
      GetQueryInfo. unfold_monad.
    crack; (split; [unfold stateInv, PhaseNotStarted, PhaseQueued; simpl; auto
                   | assumption]).
  - unfold KickOffQuery, GetQueryInfo. unfold_monad.
    crack;
      try (split; [first [assumption | apply stateInv_count; assumption]
                  | assumption]);
      (split; [apply stateInv_submitted|];
       eapply getOrCreate_keeps_inv; [exact Hc | | eassumption];
       apply FormatInt10_nonempty).
  - assert (Hid : hasCommandId s)
      by (destruct Hs as [Hn | [Hq | ?]];
          [unfold PhaseNotStarted in Hn; lia | unfold PhaseQueued in Hq; lia
          | assumption]).
    unfold MonitorQuery. unfold_monad. crack.
    all: match goal with
         | Hg : Sim.getOrCreate _ _ _ = _ |- _ =>
             eapply getOrCreate_keeps_inv in Hg; [|exact Hc|exact Hid];
             destruct Hg as [Hc' Hr]
         end.
    all: split; try assumption.
    right; right. apply Hr. reflexivity.
  - split; assumption.
  - split; assumption.
  - split; [left; reflexivity | assumption].
Qed.

Lemma refresh_keeps_inv id observed w :
  cacheInv w -> cacheInv (Sim.refresh id observed w).
Proof.
  intros Hc k c. unfold Sim.refresh. simpl. rewrite lookup_alter.
  case_decide; [|apply Hc]. subst k.
  destruct (Sim.cache w !! id) as [[c0|f]|] eqn:El; simpl; try discriminate.
  intros [= <-]. simpl. eapply Hc. eassumption.
Qed.

Lemma step_keeps_inv sw a :
  stateInv (fst sw) -> cacheInv (snd sw) ->
  stateInv (fst (step sw a)) /\ cacheInv (snd (step sw a)).
Proof.
  intros Hs Hc. destruct sw as [s w]. simpl in *.
  destruct a as [storeOnError | o | id observed]; simpl.
  - destruct (tick_keeps_inv s w Hs Hc) as [Hs' Hc'].
    destruct (snd (fst (tick s w))); [destruct storeOnError|]; simpl;
      split; assumption.
  - split; assumption.
  - split; [assumption | apply refresh_keeps_inv; assumption].
Qed.

Lemma run_keeps_inv script : forall sw,
  stateInv (fst sw) -> cacheInv (snd sw) ->
  stateInv (fst (run script sw)) /\ cacheInv (snd (run script sw)).
Proof.
  induction script as [|a script IH]; intros sw Hs Hc; simpl.
  - split; assumption.
  - destruct (step_keeps_inv sw a Hs Hc) as [Hs' Hc'].
    apply IH; assumption.
Qed.

Lemma initial_inv o : stateInv (fst (Sim.initial o)) /\ cacheInv (snd (Sim.initial o)).
Proof.
  split; [left; reflexivity|]. intros k c. simpl. rewrite lookup_empty.
  discriminate.
Qed.

(** C4.  Every state the iteration reaches from the zero state carries a
    command id once its phase is Succeeded or Failed, and the transition
    function, on any platform, returns such a state as it is, with a nil
    error and without calling a collaborator. *)
Theorem terminal_states_are_fixed_points s :
  Sim.reachable defaultLabel quboleCfg tCtx cfg s ->
  Phase s = PhaseQuerySucceeded \/ Phase s = PhaseQueryFailed ->
  CommandId s <> ""
  /\ forall (PK : Package) (W : Type) (PF : Platform W) tCtx' cfg'
       (w : W * list Call),
       HandleExecutionState tCtx' s cfg' w = ((s, None), w).
Proof.
  intros (o & script & <-) Hp. split.
  - destruct (initial_inv o) as [Hs Hc].
    destruct (run_keeps_inv script _ Hs Hc) as [[Hn | [Hq | Hid]] _].
    + unfold PhaseNotStarted, PhaseQuerySucceeded, PhaseQueryFailed in *. lia.
    + unfold PhaseQueued, PhaseQuerySucceeded, PhaseQueryFailed in *. lia.
    + exact Hid.
  - intros. apply handle_terminal. exact Hp.
Qed.

End Iteration.

(** *** The properties at concrete inputs *)

Section Concrete.
Import Sim.

Local Abbreviation Finalize' := (Finalize (PK := plainPackage) (PF := plainPlatform)).
Local Abbreviation Handle' :=
  (HandleExecutionState (PK := plainPackage) (PF := plainPlatform)).
Local Abbreviation KickOff' := (KickOffQuery (PK := plainPackage) (PF := plainPlatform)).

(** C1, as stated, fails: when the task template cannot be read, [Finalize]
    returns before the release; the log holds the read and no release. *)
Lemma finalize_returns_before_release :
  calls_of (Finalize' task succeededState (world readBroken)) = [CallTaskRead]
  /\ count_calls is_release
       (calls_of (Finalize' task succeededState (world readBroken))) <> 1%nat
  /\ fst (Finalize' task succeededState (world readBroken))
     = Some (Wrapf ResourceManagerFailure (PlainError "task template unavailable")
               "Error getting query info when releasing allocation token exec-n0-0").
Proof. repeat split. vm_compute. discriminate. Qed.

Example finalize_releases_once :
  calls_of (Finalize' task succeededState (world calm))
  = [CallTaskRead; CallReleaseResource "default" "exec-n0-0"].
Proof. reflexivity. Qed.

(** C2, as stated, fails: a task that has been waiting for its token since
    instant 500 and meets an unreachable allocator gets the zero state back
    with the error, not the state it came with. *)
Lemma admission_error_returns_zero_state :
  fst (Handle' task waitingState emptyConfig (world allocatorDown))
  = (zeroExecutionState,
     Some (Wrapf ResourceManagerFailure (PlainError "allocator unreachable")
             "Error requesting allocation token exec-n0-0"))
  /\ zeroExecutionState <> waitingState.
Proof. split; [reflexivity | discriminate]. Qed.

Example registration_error_returns_advanced_state :
  fst (Handle' task queuedState emptyConfig (world cacheBroken))
  = (mkExecutionState PhaseSubmitted "123" "https://api.qubole.com/cmd/123" 0 2 1000,
     Some (PlainError "cache is full")).
Proof. reflexivity. Qed.

Lemma registration_fails_at_broken_cache :
  RegistrationFails (PK := plainPackage) (PF := plainPlatform) task queuedState
    emptyConfig (world cacheBroken)
    (mkCommandDetails 123 "https://api.qubole.com/cmd/123")
    (PlainError "cache is full").
Proof.
  exists "key", (mkWorld ∅ cacheBroken), "select 1", "", ["ns:p-d"], 30,
    (mkWorld ∅ cacheBroken, [CallSecretGet "token"; CallTaskRead]),
    (mkWorld ∅ cacheBroken), (mkWorld ∅ cacheBroken).
  repeat split.
Defined.

Lemma error_state_by_phase_witness :
  fst (Handle' task queuedState emptyConfig (world cacheBroken))
  = (advanced (mkCommandDetails 123 "https://api.qubole.com/cmd/123") queuedState,
     Some (PlainError "cache is full"))
  /\ advanced (mkCommandDetails 123 "https://api.qubole.com/cmd/123") queuedState
     <> queuedState.
Proof.
  apply (proj2 (error_state_by_phase (PK := plainPackage) (PF := plainPlatform)
                  task queuedState emptyConfig (world cacheBroken))).
  - reflexivity.
  - exact registration_fails_at_broken_cache.
Defined.

(** C3.  [KickOffQuery] hands two collaborator errors back as they are,
    without a kind from the taxonomy: the error of the query extraction
    and the error of the cache registration. *)
Theorem kick_off_returns_untagged_errors :
  fst (KickOff' task queuedState emptyConfig (world readBroken))
  = (queuedState, Some (PlainError "task template unavailable"))
  /\ carries_taxonomy_kind (PlainError "task template unavailable") = false
  /\ snd (fst (KickOff' task queuedState emptyConfig (world cacheBroken)))
     = Some (PlainError "cache is full")
  /\ carries_taxonomy_kind (PlainError "cache is full") = false.
Proof. repeat split. Qed.

Lemma terminal_states_are_fixed_points_witness :
  CommandId succeededState <> ""
  /\ forall (PK : Package) (W : Type) (PF : Platform W) tCtx' cfg'
       (w : W * list Call),
       HandleExecutionState tCtx' succeededState cfg' w
       = ((succeededState, None), w).
Proof.
  apply (terminal_states_are_fixed_points "default" emptyConfig task emptyConfig
           succeededState).
  - exists calm, successScript. vm_compute. reflexivity.
  - left. reflexivity.
Defined.

Lemma allocation_denied_witness :
  let r := fst (GetAllocationToken (PK := plainPackage) (PF := plainPlatform)
                  task waitingState (world allocatorExhausted)) in
  snd r = None
  /\ Phase (fst r) = PhaseNotStarted
  /\ CreationFailureCount (fst r) = 0
  /\ (0 <= CreationFailureCount waitingState ->
      CreationFailureCount (fst r) <= CreationFailureCount waitingState)
  /\ AllocationTokenRequestStartTime (fst r) = 500.
Proof.
  apply (allocation_denied_stays_not_started (PK := plainPackage)
           (PF := plainPlatform) task waitingState (world allocatorExhausted)
           "default" (mkWorld ∅ allocatorExhausted, [CallTaskRead])
           AllocationStatusExhausted (mkWorld ∅ allocatorExhausted)).
  - reflexivity.
  - reflexivity.
  - left. reflexivity.
Defined.

Lemma create_refused_fails :
  CreateFails (PK := plainPackage) (PF := plainPlatform) task emptyConfig
    (world createRefused).
Proof.
  exists "key", (mkWorld ∅ createRefused), "select 1", "", ["ns:p-d"], 30,
    (mkWorld ∅ createRefused, [CallSecretGet "token"; CallTaskRead]),
    (PlainError "503 from the backend"), (mkWorld ∅ createRefused).
  repeat split.
Defined.

Lemma create_failure_counts_up_witness :
  let s1 := fst (fst (KickOff' task queuedState emptyConfig (world createRefused))) in
  let sn := attempts (PK := plainPackage) (PF := plainPlatform) task emptyConfig
              [world createRefused; world createRefused] s1 in
  snd (fst (KickOff' task queuedState emptyConfig (world createRefused))) = None
  /\ CreationFailureCount s1 = CreationFailureCount queuedState + 1
  /\ Phase s1 = PhaseQueued
  /\ CommandId s1 = CommandId queuedState
  /\ s1 = withCreationFailureCount (CreationFailureCount queuedState + 1) queuedState
  /\ CreationFailureCount sn = CreationFailureCount s1 + 2
  /\ CreationFailureCount s1 <= CreationFailureCount sn
  /\ Phase sn = PhaseQueued
  /\ CommandId sn = CommandId queuedState.
Proof.
  apply (create_failure_counts_up (PK := plainPackage) (PF := plainPlatform)
           task queuedState emptyConfig (world createRefused)
           [world createRefused; world createRefused]).
  - reflexivity.
  - simpl. lia.
  - vm_compute. discriminate.
  - exact create_refused_fails.
  - repeat constructor; exact create_refused_fails.
Defined.

Example three_refusals_then_success :
  let s3 := attempts (PK := plainPackage) (PF := plainPlatform) task emptyConfig
              [world createRefused; world createRefused; world createRefused]
              (mkExecutionState PhaseQueued "" "" 0 0 1000) in
  CreationFailureCount s3 = 3 /\ Phase s3 = PhaseQueued
  /\ fst (KickOff' task s3 emptyConfig (world calm))
     = (mkExecutionState PhaseSubmitted "123" "https://api.qubole.com/cmd/123" 0 3 1000,
        None).
Proof. repeat split. Qed.

Lemma projector_queued_ceiling_witness :
  fst (MapExecutionStateToPhaseInfo (PK := plainPackage) (PF := plainPlatform)
         overCeilingState (world calm))
  = PhaseInfoSystemRetryableFailure "QuboleFailure" "Too many creation attempts" None
  /\ (0 <= 6 <= 5 -> to_uint32 6 = 6).
Proof.
  apply (projector_queued_ceiling (PK := plainPackage) (PF := plainPlatform)
           overCeilingState (world calm)).
  reflexivity.
Defined.

Example projector_under_ceiling :
  fst (MapExecutionStateToPhaseInfo (PK := plainPackage) (PF := plainPlatform)
         queuedState (world calm))
  = PhaseInfoQueued 1000 2 "Waiting for Qubole launch".
Proof. reflexivity. Qed.

Lemma handle_unknown_phase_resets_witness :
  Handle' task corruptState emptyConfig (world calm)
  = ((zeroExecutionState, None), world calm).
Proof.
  apply (handle_unknown_phase_resets (PK := plainPackage) (PF := plainPlatform)
           task corruptState emptyConfig (world calm)).
  right. vm_compute. reflexivity.
Defined.

Example abort_after_success_calls_nothing :
  Abort (PK := plainPackage) (PF := plainPlatform) task succeededState "key"
    (world calm) = (None, world calm).
Proof. reflexivity. Qed.

Example abort_running_query_kills_it :
  calls_of (Abort (PK := plainPackage) (PF := plainPlatform) task
              (mkExecutionState PhaseSubmitted "123" "" 0 0 1000) "key" (world calm))
  = [CallKillCommand "123" "key"].
Proof. reflexivity. Qed.

(** The scenario of the specification for the namespace. *)
Example namespace_scenario :
  getClusterPrimaryLabel (PK := scenarioPackage) (scenarioTask "x" "y") "teamA"
    = "prod-1"
  /\ getClusterPrimaryLabel (PK := scenarioPackage) (scenarioTask "p" "d") ""
    = "prod-2"
  /\ getClusterPrimaryLabel (PK := scenarioPackage) (scenarioTask "x" "y") ""
    = "default".
Proof. repeat split. Qed.

Lemma namespace_precedence_witness :
  getClusterPrimaryLabel (PK := scenarioPackage) (scenarioTask "p" "d") "teamA"
  = "prod-1".
Proof.
  apply (proj1 (proj2 (namespace_precedence (PK := scenarioPackage)
                         (scenarioTask "p" "d") "teamA"))).
  reflexivity.
Defined.

End Concrete.

(** * Further properties of the code *)

Ltac crack_eq :=
  crack; intros Heq; inversion Heq; subst; clear Heq.

Section Naming.

Lemma phase_string_out_of_range p :
  p < 0 \/ 4 < p -> ExecutionPhase_String p = BadPhaseName.
Proof.
  intros Hp. unfold ExecutionPhase_String, PhaseNotStarted, PhaseQueued,
    PhaseSubmitted, PhaseQuerySucceeded, PhaseQueryFailed.
  assert (E : forall k, 0 <= k <= 4 -> (p =? k) = false)
    by (intros; apply Z.eqb_neq; lia).
  rewrite !E by lia. reflexivity.
Qed.

Lemma phase_in_range_cases p :
  0 <= p <= 4 -> p = 0 \/ p = 1 \/ p = 2 \/ p = 3 \/ p = 4.
Proof. lia. Qed.

(** X1.  [String] names the five phases apart and gives the bad-phase
    text to every other value, and to those only. *)
Theorem phase_string_tells_phases_apart p q :
  (ExecutionPhase_String p = BadPhaseName <-> p < 0 \/ 4 < p)
  /\ (0 <= p <= 4 -> 0 <= q <= 4 ->
      ExecutionPhase_String p = ExecutionPhase_String q -> p = q).
Proof.
  split; [split|].
  - intros Hs. destruct (Z_lt_le_dec p 0) as [|H0]; [auto|].
    destruct (Z_lt_le_dec 4 p) as [|H4]; [auto|]. exfalso.
    destruct (phase_in_range_cases p (conj H0 H4)) as [-> | [-> | [-> | [-> | ->]]]];
      discriminate Hs.
  - apply phase_string_out_of_range.
  - intros Hp Hq.
    destruct (phase_in_range_cases p Hp) as [-> | [-> | [-> | [-> | ->]]]];
    destruct (phase_in_range_cases q Hq) as [-> | [-> | [-> | [-> | ->]]]];
      intros Hs; try reflexivity; discriminate Hs.
Qed.

End Naming.

Section States.

(** X2.  No state is both terminal and not yet submitted; a state that is
    neither is at Submitted or carries none of the five phases. *)
Theorem terminal_and_not_yet_submitted_exclude s :
  InTerminalState s && IsNotYetSubmitted s = false
  /\ (IsNotYetSubmitted s = true <->
      Phase s = PhaseNotStarted \/ Phase s = PhaseQueued)
  /\ (InTerminalState s = false /\ IsNotYetSubmitted s = false <->
      Phase s = PhaseSubmitted \/ Phase s < 0 \/ 4 < Phase s).
Proof.
  unfold InTerminalState, IsNotYetSubmitted, PhaseNotStarted, PhaseQueued,
    PhaseSubmitted, PhaseQuerySucceeded, PhaseQueryFailed.
  destruct (Z.eqb_spec (Phase s) 0), (Z.eqb_spec (Phase s) 1),
    (Z.eqb_spec (Phase s) 3), (Z.eqb_spec (Phase s) 4); simpl;
    repeat split; intros; try lia; try discriminate;
    try (intuition (try lia; discriminate)).
Qed.

End States.

Section MoreProperties.
Context {PK : Package} {W : Type} {PF : Platform W}.

Implicit Types (tCtx : TaskExecutionMetadata) (s : ExecutionState)
  (cfg : Config) (w : W * list Call).

(** *** The projector *)

Lemma ConstructTaskInfo_run s w :
  ConstructTaskInfo s w
  = (if String.eqb (CommandId s) "" then None
     else Some (mkTaskInfo [ConstructTaskLog s] (fst (time_Now (fst w)))),
     (snd (time_Now (fst w)), snd w)).
Proof.
  unfold ConstructTaskInfo, bind, now, ret.
  destruct (time_Now (fst w)) as [t w1]. simpl.
  destruct (String.eqb (CommandId s) ""); reflexivity.
Qed.

(** X3.  The projector calls no collaborator: whatever the state, the call
    log comes back as it went in. *)
Theorem projector_calls_nothing s w :
  calls_of (MapExecutionStateToPhaseInfo s w) = snd w.
Proof.
  unfold MapExecutionStateToPhaseInfo, calls_of, bind, now, ret.
  destruct (time_Now (fst w)) as [t w1]. simpl.
  repeat match goal with
  | |- context [if ?b then _ else _] => destruct b
  end; try reflexivity; rewrite ConstructTaskInfo_run; reflexivity.
Qed.

(** X4.  Past submission the projector reports running, success or a
    downstream-system failure by the phase, and attaches task info exactly
    when the state has a command id: one log entry with the URI of the
    state, named after phase and command id. *)
Theorem projector_after_submission s w :
  Phase s = PhaseSubmitted \/ Phase s = PhaseQuerySucceeded
  \/ Phase s = PhaseQueryFailed ->
  let p := fst (MapExecutionStateToPhaseInfo s w) in
  (exists info,
     p = (if Phase s =? PhaseSubmitted then PhaseInfoRunning DefaultPhaseVersion info
          else if Phase s =? PhaseQuerySucceeded then PhaseInfoSuccess info
          else PhaseInfoFailure DownstreamSystemError "Query failed" info))
  /\ (taskInfoOf p = None <-> CommandId s = "")
  /\ (forall info, taskInfoOf p = Some info ->
        Logs info
        = [mkTaskLog ("Status: " +:+ ExecutionPhase_String (Phase s)
                      +:+ " [" +:+ CommandId s +:+ "]") (URI s)]).
Proof.
  intros Hp. unfold MapExecutionStateToPhaseInfo, bind, now, ret.
  destruct (time_Now (fst w)) as [t w1]. simpl.
  destruct Hp as [Hp | [Hp | Hp]]; rewrite Hp; simpl;
    rewrite ConstructTaskInfo_run; simpl;
    (split; [eexists; reflexivity|]);
    destruct (String.eqb_spec (CommandId s) "") as [Ec | Ec]; simpl;
    (split; [split; [try discriminate; auto | auto; try congruence]|]);
    intros info Hi; try discriminate; inversion Hi; subst; simpl;
    unfold ConstructTaskLog; rewrite Hp; reflexivity.
Qed.

(** X5.  A state that carries none of the five phases is projected to the
    zero phase info, and a state at NotStarted to not-ready, whatever else
    the state holds. *)
Theorem projector_edge_phases s w :
  (Phase s < 0 \/ 4 < Phase s ->
     fst (MapExecutionStateToPhaseInfo s w) = PhaseInfoZero)
  /\ (Phase s = PhaseNotStarted ->
      fst (MapExecutionStateToPhaseInfo s w)
      = PhaseInfoNotReady (fst (time_Now (fst w))) DefaultPhaseVersion
          "Haven't received allocation token").
Proof.
  unfold MapExecutionStateToPhaseInfo, bind, now, ret.
  destruct (time_Now (fst w)) as [t w1]. simpl. split.
  - intros Hp.
    assert (E : forall k, 0 <= k <= 4 -> (Phase s =? k) = false)
      by (intros; apply Z.eqb_neq; lia).
    unfold PhaseNotStarted, PhaseQueued, PhaseSubmitted, PhaseQuerySucceeded,
      PhaseQueryFailed.
    rewrite !E by lia. reflexivity.
  - intros ->. reflexivity.
Qed.

(** *** The query extraction *)

(** X6.  When the template is read and decoded and has a query, the
    extraction returns the query, the cluster label and the timeout of the
    job, and these tags in this order: the tags of the job, the namespace
    tag, one tag "key:value" per label. *)
Theorem query_info_of_a_valid_job tCtx w tpl (w1 : W) job q :
  TaskReader_Read (fst w) = (inl tpl, w1) ->
  UnmarshalStruct (GetCustom tpl) = inl job ->
  Query job = Some q ->
  GetQueryInfo tCtx w
  = ((Query_ q, ClusterLabel job,
      Tags job ++ ["ns:" +:+ GetNamespace tCtx]
        ++ map (fun kv => fst kv +:+ ":" +:+ snd kv) (GetLabels tCtx),
      TimeoutSec q, None),
     (w1, snd w ++ [CallTaskRead]))
  /\ (forall t, In t (Tags job) ->
        In t (queryTags (fst (GetQueryInfo tCtx w))))
  /\ length (queryTags (fst (GetQueryInfo tCtx w)))
     = (length (Tags job) + 1 + length (GetLabels tCtx))%nat.
Proof.
  intros Hr Hu Hq.
  assert (E : GetQueryInfo tCtx w
              = ((Query_ q, ClusterLabel job,
                  Tags job ++ ["ns:" +:+ GetNamespace tCtx]
                    ++ map (fun kv => fst kv +:+ ":" +:+ snd kv) (GetLabels tCtx),
                  TimeoutSec q, None),
                 (w1, snd w ++ [CallTaskRead]))).
  { unfold GetQueryInfo, bind, call. rewrite Hr. simpl. rewrite Hu.
    unfold validateQuboleHiveJob. rewrite Hq. unfold ret, labelTags.
    rewrite <- app_assoc. reflexivity. }
  rewrite E. unfold queryTags. simpl. split; [reflexivity|]. split.
  - intros t Ht. apply in_or_app. left. assumption.
  - rewrite length_app. simpl. rewrite length_map. lia.
Qed.

(** X7.  When the extraction fails, the four values it returns are the
    zero values, and the error is the reader's, or the decoder's, or, for a
    job without a query, the bad-task-specification error of the
    validation; no other error arises. *)
Theorem query_info_failure tCtx w q c ts t e w' :
  GetQueryInfo tCtx w = ((q, c, ts, t, Some e), w') ->
  q = "" /\ c = "" /\ ts = [] /\ t = 0
  /\ snd w' = snd w ++ [CallTaskRead]
  /\ (fst (TaskReader_Read (fst w)) = inr e
      \/ exists tpl, fst (TaskReader_Read (fst w)) = inl tpl
           /\ (UnmarshalStruct (GetCustom tpl) = inr e
               \/ exists job, UnmarshalStruct (GetCustom tpl) = inl job
                    /\ Query job = None
                    /\ error_code e = Some BadTaskSpecification)).
Proof.
  unfold GetQueryInfo, validateQuboleHiveJob. unfold_monad.
  destruct (TaskReader_Read (fst w)) as [[tpl | er] w1]; simpl.
  - destruct (UnmarshalStruct (GetCustom tpl)) as [job | eu] eqn:Eu; simpl.
    + destruct (Query job) as [hq|] eqn:Eq; simpl; intros Heq;
        inversion Heq; subst; clear Heq.
      repeat split; try reflexivity. right. exists tpl. split; [reflexivity|].
      right. exists job. repeat split; try assumption; reflexivity.
    + intros Heq; inversion Heq; subst; clear Heq.
      repeat split; try reflexivity. right. exists tpl. split; [reflexivity|].
      left. exact Eu.
  - intros Heq; inversion Heq; subst; clear Heq.
    repeat split; try reflexivity. left. reflexivity.
Qed.

(** *** Admission *)

(** X8.  When the allocator grants the token, the state returned is at
    Queued and is built afresh: no command id, no URI, both failure counts
    zero, whatever the input held; only the request start time is taken
    over, or read from the clock when the input had none.  The calls are
    the template read, the allocation for the namespace and the generated
    name, and one wait-time observation. *)
Theorem allocation_granted_queues_a_fresh_state tCtx s w ns w1 (w2 : W) :
  composeResourceNamespaceWithClusterPrimaryLabel tCtx w = ((ns, None), w1) ->
  AllocateResource ns (GetGeneratedName tCtx) (fst w1)
  = (inl AllocationStatusGranted, w2) ->
  fst (GetAllocationToken tCtx s w)
  = (mkExecutionState PhaseQueued "" "" 0 0
       (if IsZero (AllocationTokenRequestStartTime s)
        then fst (time_Now w2)
        else AllocationTokenRequestStartTime s),
     None)
  /\ exists d,
       calls_of (GetAllocationToken tCtx s w)
       = snd w ++ [CallTaskRead;
                   CallAllocateResource ns (GetGeneratedName tCtx);
                   CallObserveWaitTime d].
Proof.
  intros Hns Hal.
  pose proof (compose_log tCtx w) as Hl. rewrite Hns in Hl. simpl in Hl.
  unfold GetAllocationToken, bind, calls_of. rewrite Hns.
  unfold call. rewrite Hal. simpl. rewrite Hl.
  destruct (IsZero (AllocationTokenRequestStartTime s)); unfold now, ret, observe;
    simpl; destruct (time_Now w2) as [t w3]; simpl;
    try destruct (time_Now w3) as [t' w4]; simpl;
    (split; [reflexivity|]); eexists; rewrite <- !app_assoc; reflexivity.
Qed.

(** X9.  Every error of [GetAllocationToken] is a resource manager
    failure, built by the wrapper. *)
Theorem allocation_errors_are_resource_manager_failures tCtx s w s' e w' :
  GetAllocationToken tCtx s w = ((s', Some e), w') ->
  error_code e = Some ResourceManagerFailure.
Proof.
  unfold GetAllocationToken, composeResourceNamespaceWithClusterPrimaryLabel.
  unfold_monad. crack_eq; reflexivity.
Qed.

(** X10.  Without a namespace no token is asked for: when the query
    extraction fails, the only call is the template read, and the error
    returned wraps the one of the extraction. *)
Theorem no_allocation_without_namespace tCtx s w q c ts t e w1 :
  GetQueryInfo tCtx w = ((q, c, ts, t, Some e), w1) ->
  GetAllocationToken tCtx s w
  = ((zeroExecutionState,
      Some (Wrapf ResourceManagerFailure e
              ("Error getting query info when requesting allocation token "
               +:+ GetGeneratedName tCtx))),
     w1)
  /\ calls_of (GetAllocationToken tCtx s w) = snd w ++ [CallTaskRead].
Proof.
  intros Hq. pose proof (GetQueryInfo_log tCtx w) as Hl. rewrite Hq in Hl.
  unfold GetAllocationToken, composeResourceNamespaceWithClusterPrimaryLabel,
    bind, calls_of. rewrite Hq. simpl. split; [reflexivity | exact Hl].
Qed.

(** X11.  An answer of the allocator that is none of granted, exhausted
    and quota-exceeded is an error; the wait time has been observed by
    then, once. *)
Theorem undefined_allocation_is_an_error tCtx s w ns w1 (w2 : W) :
  composeResourceNamespaceWithClusterPrimaryLabel tCtx w = ((ns, None), w1) ->
  AllocateResource ns (GetGeneratedName tCtx) (fst w1)
  = (inl AllocationUndefined, w2) ->
  (exists msg,
     snd (fst (GetAllocationToken tCtx s w))
     = Some (Errorf ResourceManagerFailure msg))
  /\ Phase (fst (fst (GetAllocationToken tCtx s w))) = PhaseNotStarted
  /\ exists d,
       calls_of (GetAllocationToken tCtx s w)
       = snd w ++ [CallTaskRead;
                   CallAllocateResource ns (GetGeneratedName tCtx);
                   CallObserveWaitTime d].
Proof.
  intros Hns Hal.
  pose proof (compose_log tCtx w) as Hl. rewrite Hns in Hl. simpl in Hl.
  unfold GetAllocationToken, bind, calls_of. rewrite Hns.
  unfold call. rewrite Hal. simpl. rewrite Hl.
  destruct (IsZero (AllocationTokenRequestStartTime s)); unfold now, ret, observe;
    simpl; destruct (time_Now w2) as [t w3]; simpl;
    try destruct (time_Now w3) as [t' w4]; simpl;
    (split; [eexists; reflexivity|]); (split; [reflexivity|]);
    eexists; rewrite <- !app_assoc; reflexivity.
Qed.

(** *** Creation *)

(** X12.  When the command is created and registered, the state returned
    is the input with phase Submitted, the command id in decimal and the
    URI of the command; failure counts and start time are kept, and what
    the cache handed back plays no part.  The command id is not empty.
    The item registered holds this very state under the generated name. *)
Theorem kick_off_submits tCtx s cfg w apiKey (w1 : W) query cluster tags
  timeoutSec w2 d (w3 : W) it (w4 : W) :
  let s' := mkExecutionState PhaseSubmitted (FormatInt10 (ID d)) (CommandURI d)
              (SyncFailureCount s) (CreationFailureCount s)
              (AllocationTokenRequestStartTime s) in
  let label := getClusterPrimaryLabel tCtx cluster in
  let id := GetGeneratedName tCtx in
  SecretManager_Get (TokenKey cfg) (fst w) = (inl apiKey, w1) ->
  GetQueryInfo tCtx (w1, snd w ++ [CallSecretGet (TokenKey cfg)])
  = ((query, cluster, tags, timeoutSec, None), w2) ->
  ExecuteHiveCommand query timeoutSec label apiKey tags (fst w2) = (inl d, w3) ->
  GetOrCreate id (StateItem (mkCacheItem s' id)) w3 = (inl it, w4) ->
  KickOffQuery tCtx s cfg w
  = ((s', None),
     (w4, snd w ++ [CallSecretGet (TokenKey cfg); CallTaskRead;
                    CallExecuteHiveCommand query timeoutSec label apiKey tags;
                    CallGetOrCreate id (StateItem (mkCacheItem s' id))]))
  /\ CommandId s' <> "".
Proof.
  intros s' label id Hs Hq He Hg.
  pose proof (GetQueryInfo_log tCtx (w1, snd w ++ [CallSecretGet (TokenKey cfg)]))
    as Hl. rewrite Hq in Hl. simpl in Hl.
  split; [|apply FormatInt10_nonempty].
  unfold KickOffQuery, bind, call. rewrite Hs. simpl. rewrite Hq. simpl.
  fold label. rewrite He. simpl.
  change (withURI (CommandURI d)
            (withPhase PhaseSubmitted (withCommandId (FormatInt10 (ID d)) s)))
    with s'.
  fold id. rewrite Hg. unfold ret. rewrite Hl. rewrite <- !app_assoc.
  reflexivity.
Qed.


(** *** Monitoring *)

(** X14.  [MonitorQuery] makes one call, the get-or-create for the
    generated name, seeded with the state it was given.  It succeeds
    exactly when the cache hands back an execution item, and then returns
    the state of that item as it is; every failure is a cache failure and
    leaves the state as it came. *)
Theorem monitor_query_outcomes tCtx s w :
  let id := GetGeneratedName tCtx in
  let g := GetOrCreate id (StateItem (mkCacheItem s id)) (fst w) in
  let r := MonitorQuery tCtx s w in
  calls_of r = snd w ++ [CallGetOrCreate id (StateItem (mkCacheItem s id))]
  /\ fst (snd r) = snd g
  /\ (snd (fst r) = None <-> exists c, fst g = inl (StateItem c))
  /\ (forall c, fst g = inl (StateItem c) -> fst (fst r) = ItemState c)
  /\ (forall e, snd (fst r) = Some e ->
        error_code e = Some CacheFailed /\ fst (fst r) = s).
Proof.
  unfold MonitorQuery, calls_of, bind, call, ret. simpl.
  destruct (GetOrCreate (GetGeneratedName tCtx)
              (StateItem (mkCacheItem s (GetGeneratedName tCtx))) (fst w))
    as [[[c | f] | e] w1]; simpl.
  - repeat split; try reflexivity.
    + intros _. exists c. reflexivity.
    + intros c' [= <-]. reflexivity.
    + discriminate.
    + discriminate.
  - repeat split; try reflexivity; try discriminate.
    + intros [c' Hc']. discriminate.
    + match goal with Hs : Some _ = Some _ |- _ => inversion Hs end.
      reflexivity.
  - repeat split; try reflexivity; try discriminate.
    + intros [c' Hc']. discriminate.
    + match goal with Hs : Some _ = Some _ |- _ => inversion Hs end.
      reflexivity.
Qed.

(** X15.  The tick after a submission monitors what the submission
    registered: when [KickOffQuery] leaves Queued for Submitted, its last
    call is the registration of the returned state under the generated
    name, and the next tick on that state makes this same call and no
    other. *)
Theorem monitor_seeds_what_kick_off_registered tCtx s cfg w s' w' (w'' : W) :
  Phase s = PhaseQueued ->
  KickOffQuery tCtx s cfg w = ((s', None), w') ->
  Phase s' = PhaseSubmitted ->
  let c := CallGetOrCreate (GetGeneratedName tCtx)
             (StateItem (mkCacheItem s' (GetGeneratedName tCtx))) in
  (exists l, snd w' = l ++ [c])
  /\ calls_of (HandleExecutionState tCtx s' cfg (w'', [])) = [c].
Proof.
  intros Hq Hk Hs' c. split.
  - revert Hk. unfold KickOffQuery, GetQueryInfo. unfold_monad.
    crack_eq; simpl in *;
      try (rewrite Hq in Hs'; discriminate Hs');
      eexists; reflexivity.
  - rewrite handle_submitted by assumption.
    unfold MonitorQuery, calls_of, bind, call, ret. simpl.
    destruct (GetOrCreate _ _ w'') as [[[c0 | f] | e] w1]; reflexivity.
Qed.

(** *** The transition function as a whole *)

(** X16.  From NotStarted and from Queued a tick moves the phase by at
    most one step, with or without an error. *)
Theorem handle_moves_one_phase_at_most tCtx s cfg w :
  let s' := fst (fst (HandleExecutionState tCtx s cfg w)) in
  (Phase s = PhaseNotStarted ->
     Phase s' = PhaseNotStarted \/ Phase s' = PhaseQueued)
  /\ (Phase s = PhaseQueued ->
      Phase s' = PhaseQueued \/ Phase s' = PhaseSubmitted).
Proof.
  simpl. split; intros Hp.
  - rewrite handle_not_started by assumption.
    unfold GetAllocationToken, composeResourceNamespaceWithClusterPrimaryLabel,
      GetQueryInfo. unfold_monad. crack; auto.
  - rewrite handle_queued by assumption.
    unfold KickOffQuery, GetQueryInfo. unfold_monad. crack; auto.
Qed.

(** X17.  The transition function never releases the token and never
    cancels a command; it asks for a token at NotStarted only, creates a
    command at Queued only, and turns to the cache at Queued and Submitted
    only. *)
Theorem handle_call_discipline tCtx s cfg w :
  exists l,
    calls_of (HandleExecutionState tCtx s cfg w) = snd w ++ l
    /\ count_calls is_release l = 0%nat
    /\ count_calls is_kill l = 0%nat
    /\ (count_calls is_allocate l <> 0%nat -> Phase s = PhaseNotStarted)
    /\ (count_calls is_execute l <> 0%nat -> Phase s = PhaseQueued)
    /\ (count_calls is_get_or_create l <> 0%nat ->
        Phase s = PhaseQueued \/ Phase s = PhaseSubmitted).
Proof.
  unfold HandleExecutionState.
  destruct (Z.eqb_spec (Phase s) PhaseNotStarted) as [E0 | N0].
  - unfold GetAllocationToken, composeResourceNamespaceWithClusterPrimaryLabel,
      GetQueryInfo. unfold_monad.
    crack; rewrite <- ?app_assoc; simpl;
      eexists; (split; [reflexivity|]); unfold count_calls; simpl;
      repeat split; auto; intros Hc; exfalso; apply Hc; reflexivity.
  - destruct (Z.eqb_spec (Phase s) PhaseQueued) as [E1 | N1].
    + unfold KickOffQuery, GetQueryInfo. unfold_monad.
      crack; rewrite <- ?app_assoc; simpl;
        eexists; (split; [reflexivity|]); unfold count_calls; simpl;
        repeat split; auto; intros Hc; exfalso; apply Hc; reflexivity.
    + destruct (Z.eqb_spec (Phase s) PhaseSubmitted) as [E2 | N2].
      * unfold MonitorQuery. unfold_monad.
        crack; eexists; (split; [reflexivity|]); unfold count_calls; simpl;
          repeat split; auto; intros Hc; exfalso; apply Hc; reflexivity.
      * exists []. rewrite app_nil_r. unfold count_calls. simpl.
        split; [|repeat split; auto; intros Hc; exfalso; apply Hc; reflexivity].
        repeat match goal with
        | |- context [if ?b then _ else _] => destruct b
        end; reflexivity.
Qed.

(** *** The lifecycle hooks *)

(** X18.  The token is released under the namespace and the name it was
    asked for: when the template reads the same cluster label at admission
    and at [Finalize], the release call names the namespace and the
    generated name of the allocation call. *)
Theorem release_names_the_allocation tCtx s s0 (wa wf : W) q c ts t wa1 q' ts' t' wf1 :
  GetQueryInfo tCtx (wa, []) = ((q, c, ts, t, None), wa1) ->
  GetQueryInfo tCtx (wf, []) = ((q', c, ts', t', None), wf1) ->
  let ns := getClusterPrimaryLabel tCtx c in
  let id := GetGeneratedName tCtx in
  (exists l, calls_of (GetAllocationToken tCtx s (wa, []))
             = [CallTaskRead; CallAllocateResource ns id] ++ l)
  /\ calls_of (Finalize tCtx s0 (wf, []))
     = [CallTaskRead; CallReleaseResource ns id].
Proof.
  intros Ha Hf ns id.
  pose proof (GetQueryInfo_log tCtx (wa, [])) as La. rewrite Ha in La.
  pose proof (GetQueryInfo_log tCtx (wf, [])) as Lf. rewrite Hf in Lf.
  simpl in La, Lf. split.
  - unfold GetAllocationToken, composeResourceNamespaceWithClusterPrimaryLabel,
      bind, calls_of. rewrite Ha. simpl. fold ns id.
    unfold call. simpl. rewrite La.
    destruct (AllocateResource ns id (fst wa1)) as [[a | e] w2]; simpl.
    + unfold_monad.
      crack; eexists; reflexivity.
    + exists []. reflexivity.
  - unfold Finalize, composeResourceNamespaceWithClusterPrimaryLabel,
      bind, calls_of. rewrite Hf. simpl. fold ns id.
    unfold call. simpl. rewrite Lf.
    destruct (ReleaseResource ns id (fst wf1)) as [[e|] w2]; reflexivity.
Qed.

(** X19.  [Finalize] returns nil exactly when the namespace was computed
    and the release answered nil; an error of the release comes back as it
    is, without a wrapper around it. *)
Theorem finalize_succeeds_iff_released tCtx s w :
  (fst (Finalize tCtx s w) = None <->
     exists ns w1,
       composeResourceNamespaceWithClusterPrimaryLabel tCtx w = ((ns, None), w1)
       /\ fst (ReleaseResource ns (GetGeneratedName tCtx) (fst w1)) = None)
  /\ (forall ns w1 e,
        composeResourceNamespaceWithClusterPrimaryLabel tCtx w = ((ns, None), w1) ->
        fst (ReleaseResource ns (GetGeneratedName tCtx) (fst w1)) = Some e ->
        fst (Finalize tCtx s w) = Some e).
Proof.
  unfold Finalize, bind.
  destruct (composeResourceNamespaceWithClusterPrimaryLabel tCtx w)
    as [[ns [e|]] w1]; simpl.
  - split; [split|].
    + discriminate.
    + intros (ns' & w1' & Heq & _). discriminate.
    + intros ns' w1' e' Heq. discriminate.
  - unfold call, ret. simpl.
    destruct (ReleaseResource ns (GetGeneratedName tCtx) (fst w1))
      as [[e|] w2] eqn:Er; simpl.
    + split; [split|].
      * discriminate.
      * intros (ns' & w1' & Heq & Hr). inversion Heq; subst.
        rewrite Er in Hr. discriminate.
      * intros ns' w1' e' Heq Hr. inversion Heq; subst.
        rewrite Er in Hr. exact Hr.
    + split; [split|].
      * intros _. exists ns, w1. rewrite Er. split; reflexivity.
      * reflexivity.
      * intros ns' w1' e' Heq Hr. inversion Heq; subst.
        rewrite Er in Hr. discriminate.
Qed.

(** X20.  [Abort] returns nil exactly when there was nothing to cancel (a
    terminal phase, or no command id) or the cancel answered nil; an error
    of [Abort] is the error of the cancel call as it is. *)
Theorem abort_succeeds_iff_nothing_left_to_cancel tCtx s apiKey w :
  (fst (Abort tCtx s apiKey w) = None <->
     InTerminalState s = true \/ CommandId s = ""
     \/ fst (KillCommand (CommandId s) apiKey (fst w)) = None)
  /\ (forall e, fst (Abort tCtx s apiKey w) = Some e ->
        fst (KillCommand (CommandId s) apiKey (fst w)) = Some e).
Proof.
  unfold Abort.
  destruct (InTerminalState s); simpl.
  - split; [split; auto | discriminate].
  - destruct (String.eqb_spec (CommandId s) "") as [Ec | Ec]; simpl.
    + split; [split; auto | discriminate].
    + unfold bind, call, ret.
      destruct (KillCommand (CommandId s) apiKey (fst w)) as [[e|] w1]; simpl.
      * split; [split|].
        -- discriminate.
        -- intros [Hx | [Hx | Hx]]; [discriminate | contradiction | discriminate].
        -- intros e' He. exact He.
      * split; [split; auto | discriminate].
Qed.

End MoreProperties.

(** *** The cluster labels *)

Section MoreNamespace.
Context {PK : Package}.

(** X21.  Among the clusters that list a label, the last one of the
    configuration gives the primary label. *)
Theorem last_listing_cluster_wins cfg label pre c post :
  ClusterConfigs cfg = pre ++ c :: post ->
  label <> "" ->
  In label (Labels c) ->
  (forall c', In c' post -> ~ In label (Labels c')) ->
  mapLabelToPrimaryLabel cfg label = (PrimaryLabel c, true).
Proof.
  intros Hcfg Hne Hin Hpost.
  rewrite mapLabelToPrimaryLabel_spec. unfold primaryLabelOf.
  destruct (String.eqb_spec label "") as [|_]; [contradiction|].
  rewrite Hcfg, List.filter_app. simpl.
  assert (Hc : listsLabel label c = true).
  { unfold listsLabel. apply existsb_exists. exists label.
    split; [assumption | apply String.eqb_refl]. }
  assert (Hp : List.filter (listsLabel label) post = []).
  { clear Hcfg. induction post as [|c' post IH]; [reflexivity|]. simpl.
    destruct (listsLabel label c') eqn:El.
    - exfalso. apply (Hpost c'); [left; reflexivity|].
      unfold listsLabel in El. apply existsb_exists in El.
      destruct El as (l & Hl & Heq). apply String.eqb_eq in Heq. subst l.
      assumption.
    - apply IH. intros c'' Hc''. apply Hpost. right. assumption. }
  rewrite Hc, Hp, last_snoc. reflexivity.
Qed.

(** X22.  A label is found exactly when it is not empty and some cluster
    lists it; a label that is not found gets the default primary label. *)
Theorem label_found_iff_listed cfg label :
  (snd (mapLabelToPrimaryLabel cfg label) = true <->
     label <> "" /\ exists c, In c (ClusterConfigs cfg) /\ In label (Labels c))
  /\ (snd (mapLabelToPrimaryLabel cfg label) = false ->
      fst (mapLabelToPrimaryLabel cfg label) = DefaultClusterPrimaryLabel).
Proof.
  rewrite mapLabelToPrimaryLabel_spec.
  destruct (primaryLabelOf cfg label) as [p|] eqn:Ep; simpl.
  - split; [|discriminate]. split; [intros _|reflexivity].
    apply primaryLabelOf_Some in Ep. destruct Ep as (Hne & c & Hc & Hl & _).
    eauto.
  - split; [|reflexivity]. split; [discriminate|].
    intros (Hne & c & Hc & Hl). exfalso.
    apply primaryLabelOf_None in Ep. destruct Ep as [-> | Hn];
      [contradiction | exact (Hn c Hc Hl)].
Qed.

(** X23.  For a (project, domain) pair the first entry of the
    configuration that names both gives the cluster label. *)
Theorem first_destination_entry_wins tCtx cfg pre m post :
  DestinationClusterConfigs cfg = pre ++ m :: post ->
  Project m = GetProject tCtx -> Domain m = GetDomain tCtx ->
  (forall m', In m' pre ->
     Project m' <> GetProject tCtx \/ Domain m' <> GetDomain tCtx) ->
  mapProjectDomainToDestinationClusterLabel tCtx cfg = (DestClusterLabel m, true).
Proof.
  intros Hcfg Hp Hd Hpre.
  unfold mapProjectDomainToDestinationClusterLabel. rewrite Hcfg. clear Hcfg.
  induction pre as [|m' pre IH]; simpl.
  - rewrite <- Hp, <- Hd, !String.eqb_refl. reflexivity.
  - destruct (String.eqb_spec (GetProject tCtx) (Project m')) as [Ep | Np];
    destruct (String.eqb_spec (GetDomain tCtx) (Domain m')) as [Ed | Nd]; simpl;
      try (apply IH; intros m'' Hm; apply Hpre; right; assumption).
    exfalso. destruct (Hpre m') as [Hx | Hx]; [left; reflexivity | |];
      apply Hx; symmetry; assumption.
Qed.

(** X24.  A (project, domain) pair that no entry of the configuration
    names has no cluster label: the answer is the empty label, not found. *)
Theorem unknown_destination_is_not_found tCtx cfg :
  (forall m, In m (DestinationClusterConfigs cfg) ->
     Project m <> GetProject tCtx \/ Domain m <> GetDomain tCtx) ->
  mapProjectDomainToDestinationClusterLabel tCtx cfg = ("", false).
Proof.
  intros Hn. unfold mapProjectDomainToDestinationClusterLabel.
  induction (DestinationClusterConfigs cfg) as [|m ms IH]; [reflexivity|].
  simpl.
  destruct (String.eqb_spec (GetProject tCtx) (Project m)) as [Ep | Np];
  destruct (String.eqb_spec (GetDomain tCtx) (Domain m)) as [Ed | Nd]; simpl;
    try (apply IH; intros m' Hm; apply Hn; right; assumption).
  exfalso. destruct (Hn m) as [Hx | Hx]; [left; reflexivity | |];
    apply Hx; symmetry; assumption.
Qed.


(** X26.  An override that maps to no primary label counts for nothing:
    the task gets the primary label it would get without an override. *)
Theorem unmapped_override_is_ignored tCtx override :
  snd (mapLabelToPrimaryLabel GetQuboleConfig override) = false ->
  getClusterPrimaryLabel tCtx override = getClusterPrimaryLabel tCtx "".
Proof.
  intros Hf. unfold getClusterPrimaryLabel. simpl.
  destruct (negb (String.eqb override "")); [|reflexivity].
  destruct (mapLabelToPrimaryLabel GetQuboleConfig override) as [p found].
  simpl in Hf. subst found. reflexivity.
Qed.

End MoreNamespace.

(** *** The command id *)

Lemma to_int_not_nil i :
  Z.to_int i <> Decimal.Pos Decimal.Nil /\ Z.to_int i <> Decimal.Neg Decimal.Nil.
Proof.
  destruct i as [|p|p]; simpl; split; try discriminate.
  - intros [= E]. revert E. apply DecimalPos.Unsigned.to_uint_nonnil.
  - intros [= E]. revert E. apply DecimalPos.Unsigned.to_uint_nonnil.
Qed.

Lemma FormatInt10_reads_back i :
  option_map Z.of_int (NilZero.int_of_string (FormatInt10 i)) = Some i.
Proof.
  unfold FormatInt10. destruct (to_int_not_nil i) as [Hp Hn].
  rewrite NilZero.isi by assumption. simpl. f_equal. apply DecimalZ.of_to.
Qed.

(** X27.  The command id stored at submission is the decimal text of the
    id the backend gave: it reads back as that number, so two commands
    never share a command id. *)
Theorem command_id_reads_back i j :
  option_map Z.of_int (NilZero.int_of_string (FormatInt10 i)) = Some i
  /\ (FormatInt10 i = FormatInt10 j -> i = j).
Proof.
  split; [apply FormatInt10_reads_back|].
  intros E. pose proof (FormatInt10_reads_back i) as Hi.
  rewrite E, FormatInt10_reads_back in Hi. congruence.
Qed.


(** *** The further properties at concrete inputs *)

Section MoreConcrete.
Import Sim.

Local Abbreviation PP := plainPackage.
Local Abbreviation PL := plainPlatform.

Lemma projector_after_submission_witness :
  taskInfoOf (fst (MapExecutionStateToPhaseInfo (PK := PP) (PF := PL)
                     runningState (world calm))) = None
  <-> CommandId runningState = "".
Proof.
  exact (proj1 (proj2 (projector_after_submission (PK := PP) (PF := PL)
                         runningState (world calm) (or_introl eq_refl)))).
Defined.

Example projector_running_with_log :
  fst (MapExecutionStateToPhaseInfo (PK := PP) (PF := PL) runningState (world calm))
  = PhaseInfoRunning 0
      (Some (mkTaskInfo
               [mkTaskLog "Status: PhaseSubmitted [123]"
                  "https://api.qubole.com/cmd/123"] 1000)).
Proof. reflexivity. Qed.

Lemma query_info_of_a_valid_job_witness :
  queryTags (fst (GetQueryInfo (PK := PP) (PF := PL) labelledTask (world taggedWorld)))
  = ["nightly"; "ns:p-d"; "team:data"; "tier:gold"].
Proof.
  destruct (query_info_of_a_valid_job (PK := PP) (PF := PL) labelledTask
              (world taggedWorld) (@mkTaskTemplate PP (inl taggedJob))
              (mkWorld ∅ taggedWorld) taggedJob (mkHiveQuery "select 1" 30 0)
              eq_refl eq_refl eq_refl) as [E _].
  rewrite E. reflexivity.
Defined.

Lemma query_info_failure_witness :
  let e := Errorf BadTaskSpecification
    "Query could not be found. Please ensure that you are at least on Flytekit version 0.3.0 or later." in
  fst (TaskReader_Read (Platform := PL) (fst (world noQueryWorld))) = inr e
  \/ exists tpl,
       fst (TaskReader_Read (Platform := PL) (fst (world noQueryWorld))) = inl tpl
       /\ (UnmarshalStruct (GetCustom tpl) = inr e
           \/ exists job, UnmarshalStruct (GetCustom tpl) = inl job
                /\ Query job = None
                /\ error_code e = Some BadTaskSpecification).
Proof.
  exact (proj2 (proj2 (proj2 (proj2 (proj2
    (query_info_failure (PK := PP) (PF := PL) labelledTask
       (world noQueryWorld) "" "" [] 0
       (Errorf BadTaskSpecification
          "Query could not be found. Please ensure that you are at least on Flytekit version 0.3.0 or later.")
       (mkWorld ∅ noQueryWorld, [CallTaskRead]) eq_refl)))))).
Defined.

Lemma allocation_granted_witness :
  fst (GetAllocationToken (PK := PP) (PF := PL) task staleState (world calm))
  = (mkExecutionState PhaseQueued "" "" 0 0 1000, None).
Proof.
  destruct (allocation_granted_queues_a_fresh_state (PK := PP) (PF := PL)
              task staleState (world calm) "default"
              (mkWorld ∅ calm, [CallTaskRead]) (mkWorld ∅ calm)
              eq_refl eq_refl) as [E _].
  exact E.
Defined.

Lemma allocation_errors_witness :
  error_code (Wrapf ResourceManagerFailure (PlainError "allocator unreachable")
                "Error requesting allocation token exec-n0-0")
  = Some ResourceManagerFailure.
Proof.
  exact (allocation_errors_are_resource_manager_failures (PK := PP) (PF := PL)
           task waitingState (world allocatorDown) zeroExecutionState
           (Wrapf ResourceManagerFailure (PlainError "allocator unreachable")
              "Error requesting allocation token exec-n0-0")
           (mkWorld ∅ allocatorDown,
            [CallTaskRead; CallAllocateResource "default" "exec-n0-0"])
           eq_refl).
Defined.

Lemma no_allocation_without_namespace_witness :
  calls_of (GetAllocationToken (PK := PP) (PF := PL) task waitingState
              (world readBroken))
  = [] ++ [CallTaskRead].
Proof.
  exact (proj2 (no_allocation_without_namespace (PK := PP) (PF := PL)
                  task waitingState (world readBroken) "" "" [] 0
                  (PlainError "task template unavailable")
                  (mkWorld ∅ readBroken, [CallTaskRead]) eq_refl)).
Defined.

Lemma undefined_allocation_witness :
  Phase (fst (fst (GetAllocationToken (PK := PP) (PF := PL) task waitingState
                     (world allocatorConfused)))) = PhaseNotStarted.
Proof.
  exact (proj1 (proj2 (undefined_allocation_is_an_error (PK := PP) (PF := PL)
                         task waitingState (world allocatorConfused) "default"
                         (mkWorld ∅ allocatorConfused, [CallTaskRead])
                         (mkWorld ∅ allocatorConfused) eq_refl eq_refl))).
Defined.

Lemma kick_off_submits_witness :
  fst (KickOffQuery (PK := PP) (PF := PL) task queuedState emptyConfig (world calm))
  = (runningState, None).
Proof.
  edestruct (kick_off_submits (PK := PP) (PF := PL) task queuedState emptyConfig
               (world calm)) as [E _];
    [reflexivity | reflexivity | reflexivity | reflexivity |].
  rewrite E. reflexivity.
Defined.

Lemma monitor_seeds_witness :
  calls_of (HandleExecutionState (PK := PP) (PF := PL) task runningState
              emptyConfig (mkWorld ∅ calm, []))
  = [CallGetOrCreate "exec-n0-0" (StateItem (mkCacheItem runningState "exec-n0-0"))].
Proof.
  exact (proj2 (monitor_seeds_what_kick_off_registered (PK := PP) (PF := PL)
                  task queuedState emptyConfig (world calm) runningState
                  (registeredWorld, submissionLog) (mkWorld ∅ calm)
                  eq_refl eq_refl eq_refl)).
Defined.

Lemma release_names_the_allocation_witness :
  calls_of (Finalize (PK := PP) (PF := PL) task succeededState (mkWorld ∅ calm, []))
  = [CallTaskRead; CallReleaseResource "default" "exec-n0-0"].
Proof.
  exact (proj2 (release_names_the_allocation (PK := PP) (PF := PL) task
                  waitingState succeededState (mkWorld ∅ calm) (mkWorld ∅ calm)
                  "select 1" "" ["ns:p-d"] 30 (mkWorld ∅ calm, [CallTaskRead])
                  "select 1" ["ns:p-d"] 30 (mkWorld ∅ calm, [CallTaskRead])
                  eq_refl eq_refl)).
Defined.

Lemma last_listing_cluster_wins_witness :
  mapLabelToPrimaryLabel (PK := sharedLabelPackage) sharedLabelConfig "shared"
  = ("prod-2", true).
Proof.
  apply (last_listing_cluster_wins (PK := sharedLabelPackage) sharedLabelConfig
           "shared" [mkClusterConfig "prod-1" ["teamA"; "shared"]]
           (mkClusterConfig "prod-2" ["teamB"; "shared"])
           [mkClusterConfig "prod-3" ["teamC"]]).
  - reflexivity.
  - discriminate.
  - simpl. right. left. reflexivity.
  - intros c' [<- | []] [Hx | []]. discriminate Hx.
Defined.

Lemma first_destination_entry_wins_witness :
  mapProjectDomainToDestinationClusterLabel (scenarioTask "p" "d") sharedLabelConfig
  = ("teamB", true).
Proof.
  apply (first_destination_entry_wins (scenarioTask "p" "d") sharedLabelConfig []
           (mkDestinationClusterConfig "p" "d" "teamB")
           [mkDestinationClusterConfig "p" "d" "teamC"]).
  - reflexivity.
  - reflexivity.
  - reflexivity.
  - intros m' [].
Defined.

Lemma unknown_destination_witness :
  mapProjectDomainToDestinationClusterLabel (scenarioTask "x" "d") sharedLabelConfig
  = ("", false).
Proof.
  apply (unknown_destination_is_not_found (scenarioTask "x" "d") sharedLabelConfig).
  intros m [<- | [<- | []]]; left; discriminate.
Defined.

Lemma unmapped_override_witness :
  getClusterPrimaryLabel (PK := scenarioPackage) (scenarioTask "p" "d") "teamZ"
  = getClusterPrimaryLabel (PK := scenarioPackage) (scenarioTask "p" "d") "".
Proof.
  apply (unmapped_override_is_ignored (PK := scenarioPackage)
           (scenarioTask "p" "d") "teamZ").
  reflexivity.
Defined.

Example unmapped_override_falls_back :
  getClusterPrimaryLabel (PK := scenarioPackage) (scenarioTask "p" "d") "teamZ"
  = "prod-2".
Proof. reflexivity. Qed.

End MoreConcrete.
